(** * video_analysis_agent: the tool functions and the HTTP front door

    A shallow embedding of [video_analysis_agent/agent.py] (the two tool
    functions and the BigQuery toolset configuration) and of [main.py] (the
    request model and the two POST handlers), followed by the properties
    proved about them.

    Python [str] values are Rocq strings, one [ascii] per character.  What the
    code obtains from outside (blob storage, the MIME table of the Python
    library, the queue client, the agent runner, [uuid.uuid4]) is an explicit
    argument or a field of the state, so that every property below holds for
    whatever those parts answer. *)

From Stdlib Require Import Ascii ZArith.
From stdpp Require Import base option list strings sorting gmap.


(** ** Python values and control flow *)

Module Py.

(** Exceptions below [Exception], told apart the way the handlers of this
    program do: an instance of [ValueError], or any other instance of
    [Exception].  Signals that derive from [BaseException] only
    (interpreter exit, task cancellation) are not values of this type. *)
Inductive exn : Type :=
| ValueError (msg : string)
| OtherException (cls : string) (msg : string).

(** [str(e)] *)
Definition str_exn (e : exn) : string :=
  match e with
  | ValueError msg => msg
  | OtherException _ msg => msg
  end.

(** The result of evaluating a Python expression: a value, or a raise. *)
Inductive outcome (E A : Type) : Type :=
| Return (a : A)
| Raise (e : E).
Arguments Return {E A} a.
Arguments Raise {E A} e.

(** Code that reads and writes a state [S] and may raise [E]; the state
    is kept when it raises, as a mutated Python object is. *)
Definition action (S E A : Type) : Type := S -> outcome E A * S.

Definition ret {S E A} (a : A) : action S E A := fun s => (Return a, s).
Definition raise {S E A} (e : E) : action S E A := fun s => (Raise e, s).
Definition bind {S E A B} (m : action S E A) (k : A -> action S E B)
  : action S E B :=
  fun s => match m s with
           | (Return a, s') => k a s'
           | (Raise e, s') => (Raise e, s')
           end.
(** [try: m  except E as e: h e] *)
Definition try_except {S E E' A} (m : action S E A) (h : E -> action S E' A)
  : action S E' A :=
  fun s => match m s with
           | (Return a, s') => (Return a, s')
           | (Raise e, s') => h e s'
           end.
(** An expression that has a result but touches no state. *)
Definition lift {S E A} (o : outcome E A) : action S E A := fun s => (o, s).
Definition get {S E} : action S E S := fun s => (Return s, s).
Definition put {S E} (s : S) : action S E unit := fun _ => (Return tt, s).

(** [s[n:]] for [0 <= n] *)
Fixpoint slice_from (n : nat) (s : string) : string :=
  match n, s with
  | O, _ => s
  | S n', String _ s' => slice_from n' s'
  | S _, EmptyString => EmptyString
  end.

(** [s.startswith(p)] *)
Fixpoint startswith (p s : string) : bool :=
  match p, s with
  | EmptyString, _ => true
  | String a p', String b s' => if Ascii.eqb a b then startswith p' s' else false
  | String _ _, EmptyString => false
  end.

(** [c in s] for a one-character [c] *)
Fixpoint contains (c : ascii) (s : string) : bool :=
  match s with
  | EmptyString => false
  | String a s' => if Ascii.eqb a c then true else contains c s'
  end.

(** [s.partition(c)] without the separator, [None] when [c] is absent *)
Fixpoint cut_first (c : ascii) (s : string) : option (string * string) :=
  match s with
  | EmptyString => None
  | String a s' =>
      if Ascii.eqb a c then Some (EmptyString, s')
      else match cut_first c s' with
           | Some (h, t) => Some (String a h, t)
           | None => None
           end
  end.

(** [s.rpartition(c)] without the separator, [None] when [c] is absent *)
Fixpoint cut_last (c : ascii) (s : string) : option (string * string) :=
  match s with
  | EmptyString => None
  | String a s' =>
      match cut_last c s' with
      | Some (h, t) => Some (String a h, t)
      | None => if Ascii.eqb a c then Some (EmptyString, s') else None
      end
  end.

(** [s.split(c, 1)] *)
Definition split1 (c : ascii) (s : string) : list string :=
  match cut_first c s with
  | Some (h, t) => [h; t]
  | None => [s]
  end.

(** [s.rsplit(c, 1)] *)
Definition rsplit1 (c : ascii) (s : string) : list string :=
  match cut_last c s with
  | Some (h, t) => [h; t]
  | None => [s]
  end.

(** [a, b = l] *)
Definition unpack2 {A} (l : list A) : outcome exn (A * A) :=
  match l with
  | [a; b] => Return (a, b)
  | [] => Raise (ValueError "not enough values to unpack (expected 2, got 0)")
  | [_] => Raise (ValueError "not enough values to unpack (expected 2, got 1)")
  | _ => Raise (ValueError "too many values to unpack (expected 2)")
  end.

(** [l[-1]] *)
Definition item_last {A} (l : list A) : outcome exn A :=
  match last l with
  | Some a => Return a
  | None => Raise (OtherException "IndexError" "list index out of range")
  end.

(** [sep.join(l)] *)
Fixpoint join (sep : string) (l : list string) : string :=
  match l with
  | [] => ""
  | [x] => x
  | x :: l' => x +:+ sep +:+ join sep l'
  end.

(** [f"{x}"] for a value that is a [str] or [None] *)
Definition fmt (x : option string) : string :=
  match x with
  | Some s => s
  | None => "None"
  end.

(** [x or d] for a value that is a [str] or [None] *)
Definition or_default (x : option string) (d : string) : string :=
  match x with
  | Some (String a s) => String a s
  | _ => d
  end.

Definition newline : string := String "010"%char "".
Definition slash : ascii := "/"%char.

End Py.

Export Py.

#[global] Instance action_ret {S E} : MRet (action S E) := @Py.ret S E.
#[global] Instance action_bind {S E} : MBind (action S E) :=
  fun A B k m => Py.bind m k.

(** ** Message values of [google.genai.types]

    Only the fields this program reads or sets. *)

Module Genai.

Record Blob := { data : list Byte.byte; mime_type : option string }.

Record Part := { text : option string; inline_data : option Blob }.

Record Content := { role : option string; parts : option (list Part) }.

End Genai.

Export Genai.

(** ** video_analysis_agent/agent.py *)

Module Agent.

(** *** The artifact service behind a tool context

    [main.py] hands the runner an [InMemoryArtifactService()]; a tool sees
    it through its [ToolContext].  The in-memory service keeps, per
    artifact path, the list of saved versions.  A path is the application,
    the user, the session (or the user namespace, for a filename that
    starts with [user:], as the comment at agent.py:136 recalls) and the
    filename. *)

Inductive namespace : Type :=
| SessionScope (session_id : string)
| UserScope.

#[global] Instance namespace_eq_dec : EqDecision namespace.
Proof. solve_decision. Defined.
#[global] Instance namespace_countable : Countable namespace.
Proof.
  refine (inj_countable'
            (fun n => match n with SessionScope s => Some s | UserScope => None end)
            (fun o => match o with Some s => SessionScope s | None => UserScope end) _).
  by intros [].
Defined.

Abbreviation artifact_path := (string * string * namespace * string)%type.

(** The service of a context: the in-memory one, or one whose calls raise
    (a remote store that cannot be reached, say). *)
Inductive ArtifactService : Type :=
| InMemory (artifacts : gmap artifact_path (list Part))
| Failing (e : exn).

Record ToolContext := {
  app_name : string;
  user_id : string;
  session_id : string;
  artifact_service : option ArtifactService
}.

Definition with_artifacts (ctx : ToolContext)
    (artifacts : gmap artifact_path (list Part)) : ToolContext :=
  {| app_name := app_name ctx; user_id := user_id ctx;
     session_id := session_id ctx;
     artifact_service := Some (InMemory artifacts) |}.

Definition file_has_user_namespace (filename : string) : bool :=
  startswith "user:" filename.

Definition artifact_path_of (ctx : ToolContext) (filename : string)
  : artifact_path :=
  (app_name ctx, user_id ctx,
   if file_has_user_namespace filename then UserScope
   else SessionScope (session_id ctx),
   filename).

(** [tool_context.save_artifact(filename=..., artifact=...)]: appends a
    version and returns its number. *)
Definition save_artifact (filename : string) (artifact : Part)
  : action ToolContext exn nat :=
  fun ctx =>
    match artifact_service ctx with
    | None => (Raise (ValueError "Artifact service is not initialized."), ctx)
    | Some (Failing e) => (Raise e, ctx)
    | Some (InMemory artifacts) =>
        let path := artifact_path_of ctx filename in
        let versions := default [] (artifacts !! path) in
        (Return (List.length versions),
         with_artifacts ctx (<[path := versions ++ [artifact]]> artifacts))
    end.

(** The filenames the in-memory service lists for a session: those of the
    session and those of the user namespace, sorted.  Application, user
    and session names are taken to have no slash, and the session name not
    to be the word user, as is so for the session identifiers of
    [main.py]; the service itself lists by the prefix of a path text. *)
Definition list_artifact_keys (app user session : string)
    (artifacts : gmap artifact_path (list Part)) : list string :=
  merge_sort String.le
    (omap (fun kv : artifact_path * list Part =>
             match kv with
             | (a, u, ns, filename, _) =>
                 if bool_decide (a = app /\ u = user /\
                                 (ns = SessionScope session \/ ns = UserScope))
                 then Some filename else None
             end)
          (map_to_list artifacts)).

(** [tool_context.list_artifacts()] *)
Definition context_list_artifacts : action ToolContext exn (list string) :=
  fun ctx =>
    match artifact_service ctx with
    | None => (Raise (ValueError "Artifact service is not initialized."), ctx)
    | Some (Failing e) => (Raise e, ctx)
    | Some (InMemory artifacts) =>
        (Return (list_artifact_keys (app_name ctx) (user_id ctx)
                   (session_id ctx) artifacts), ctx)
    end.

(** *** The tools *)

Section Tools.

(** [mimetypes.guess_type]: the type and the encoding the Python
    library's table gives for a filename. *)
Variable guess_type : string -> option string * option string.

(** Blob storage: what
    [storage.Client().bucket(b).blob(n).download_as_bytes()] gives. *)
Variable download_as_bytes : string -> string -> outcome exn (list Byte.byte).

(** agent.py:93-159.  The log line is not modelled; the function has no
    return statement. *)
Definition add_artifact_from_gcs (uri : string) : action ToolContext exn unit :=
  let path_part := slice_from (String.length "gs://") uri in
  '(bucket_name, blob_name) ← lift (unpack2 (split1 slash path_part));
  file_bytes ← lift (download_as_bytes bucket_name blob_name);
  let parts := rsplit1 slash uri in
  filename ← lift (item_last parts);
  let '(mime_type, encoding) := guess_type filename in
  let mime_type :=
    if bool_decide (mime_type = Some "application/json")
    then Some "text/plain" else mime_type in
  let file_artifact :=
    {| text := None;
       inline_data := Some {| data := file_bytes; mime_type := mime_type |} |} in
  version ← save_artifact filename file_artifact;
  mret tt.

End Tools.

(** agent.py:165-180 *)
Definition list_artifacts : action ToolContext exn string :=
  try_except
    (available_files ← context_list_artifacts;
     if bool_decide (available_files = [])
     then mret "You have no saved artifacts."
     else
       let file_list_str :=
         join newline (map (fun fname => "- " +:+ fname) available_files) in
       mret ("Here are your available Python artifacts:" +:+ newline
             +:+ file_list_str))
    (fun e =>
       match e with
       | ValueError _ => mret "Error: Could not list Python artifacts."
       | OtherException _ _ =>
           mret "Error: An unexpected error occurred while listing Python artifacts."
       end).

(** *** The BigQuery toolset (agent.py:184-198) *)

(** The members of the toolset library's [WriteMode] enumeration. *)
Inductive WriteMode : Type :=
| BLOCKED     (* no write operation *)
| PROTECTED   (* writes to the temporary data of a query session only *)
| ALLOWED.    (* every write operation *)

Record BigQueryToolConfig := { write_mode : WriteMode }.

Record BigQueryToolset (Credentials : Type) := {
  credentials_config : Credentials;
  bigquery_tool_config : BigQueryToolConfig
}.
Arguments credentials_config {Credentials} _.
Arguments bigquery_tool_config {Credentials} _.

Definition tool_config : BigQueryToolConfig := {| write_mode := ALLOWED |}.

Definition bigquery_toolset {Credentials} (credentials : Credentials)
  : BigQueryToolset Credentials :=
  {| credentials_config := credentials; bigquery_tool_config := tool_config |}.

End Agent.

Export Agent.

(** ** JSON values and their text *)

Module Json.

#[warnings="-register-all"]
Inductive json : Type :=
| JNull
| JBool (b : bool)
| JNumber (literal : string)
| JString (s : string)
| JArray (items : list json)
| JObject (members : list (string * json)).

(** The value of a name in a parsed object: of repeated names the last
    one counts, as in [json.loads]. *)
Fixpoint member (name : string) (members : list (string * json))
  : option json :=
  match members with
  | [] => None
  | (k, v) :: rest =>
      match member name rest with
      | Some v' => Some v'
      | None => if bool_decide (k = name) then Some v else None
      end
  end.

Definition quote : ascii := "034"%char.
Definition backslash : ascii := "092"%char.

Definition hex_digit (n : N) : ascii :=
  if (n <? 10)%N then ascii_of_N (48 + n) else ascii_of_N (87 + n).

(** One character inside a JSON string, as the serializer of the request
    model writes it: the quote, the backslash and the control characters
    are escaped, everything else is written as it is. *)
Definition escape_char (c : ascii) : string :=
  if Ascii.eqb c quote then String backslash (String quote "")
  else if Ascii.eqb c backslash then String backslash (String backslash "")
  else if Ascii.eqb c "008"%char then String backslash "b"
  else if Ascii.eqb c "012"%char then String backslash "f"
  else if Ascii.eqb c "010"%char then String backslash "n"
  else if Ascii.eqb c "013"%char then String backslash "r"
  else if Ascii.eqb c "009"%char then String backslash "t"
  else if (N_of_ascii c <? 32)%N then
    String backslash
      ("u00" +:+ String (hex_digit (N_of_ascii c / 16))
                   (String (hex_digit (N_of_ascii c mod 16)) ""))
  else String c "".

Fixpoint escape (s : string) : string :=
  match s with
  | EmptyString => ""
  | String c s' => escape_char c +:+ escape s'
  end.

Definition dumps_string (s : string) : string :=
  String quote (escape s +:+ String quote "").

End Json.

Export Json.

(** ** main.py *)

Module Main.

(** *** The request model (main.py:61-63) *)

Record GcsEvent := { bucket : string; name : string }.

(** [event.model_dump_json()]: the fields in declaration order, no
    white space. *)
Definition model_dump_json (event : GcsEvent) : string :=
  "{" +:+ dumps_string "bucket" +:+ ":" +:+ dumps_string (bucket event)
      +:+ "," +:+ dumps_string "name" +:+ ":" +:+ dumps_string (name event)
      +:+ "}".

(** [s.encode()]: UTF-8 *)
Definition encode_char (c : ascii) : list Byte.byte :=
  let n := N_of_ascii c in
  if (n <? 128)%N then [byte_of_ascii c]
  else [byte_of_ascii (ascii_of_N (192 + n / 64));
        byte_of_ascii (ascii_of_N (128 + n mod 64))].

Fixpoint encode (s : string) : list Byte.byte :=
  match s with
  | EmptyString => []
  | String c s' => encode_char c ++ encode s'
  end.

(** What validation of a request body against [GcsEvent] reports: the
    kind and place of each problem, with the input it was found in. *)
Inductive validation_error : Type :=
| MissingBody
| NotAnObject (input : json)
| Missing (field : string) (input : json)
| NotAString (field : string) (input : json).

Definition validate_str (field : string) (members : list (string * json))
  : validation_error + string :=
  match member field members with
  | None => inl (Missing field (JObject members))
  | Some (JString s) => inr s
  | Some v => inl (NotAString field v)
  end.

(** Validation of a parsed body: an object whose "bucket" and "name" are
    strings; other members are ignored. *)
Definition GcsEvent_validate (body : json) : list validation_error + GcsEvent :=
  match body with
  | JObject members =>
      match validate_str "bucket" members, validate_str "name" members with
      | inr b, inr n => inr {| bucket := b; name := n |}
      | inl e1, inl e2 => inl [e1; e2]
      | inl e, inr _ | inr _, inl e => inl [e]
      end
  | JNull => inl [MissingBody]
  | _ => inl [NotAnObject body]
  end.

(** *** HTTP values *)

(** A response: the status and the JSON body, [None] for an empty body. *)
Record Response := { status_code : nat; content : option json }.

Record HTTPException := { http_status : nat; detail : string }.

(** *** The queue client ([tasks_v2]) *)

Inductive HttpMethod : Type :=
| HTTP_METHOD_UNSPECIFIED | POST | GET | HEAD | PUT | DELETE | PATCH | OPTIONS.

Record OidcToken := { service_account_email : string; audience : string }.

Record HttpRequest := {
  http_method : HttpMethod;
  url : string;
  oidc_token : OidcToken;
  headers : gmap string string;
  body : list Byte.byte
}.

Record Task := { http_request : HttpRequest; dispatch_deadline : string }.

(** The queue service as the client sees it: the tasks it holds, each
    with the queue it was created in, and the exception, if any, with
    which it answers a request. *)
Record CloudTasksClient := {
  tasks : list (string * Task);
  refuses : string -> Task -> option exn
}.

(** [tasks_client.queue_path(project, location, queue)] *)
Definition queue_path (project location queue : option string) : string :=
  "projects/" +:+ fmt project +:+ "/locations/" +:+ fmt location
    +:+ "/queues/" +:+ fmt queue.

(** *** The agent runner and the session service *)

Record Session := {
  session_app_name : string;
  session_user_id : string;
  session_session_id : string
}.

Record EventActions := { escalate : option bool }.

(** An event of the runner's stream; [is_final_response] stands for the
    result of the method of that name. *)
Record Event := {
  event_content : option Content;
  actions : option EventActions;
  error_message : option string;
  is_final_response : bool
}.

(** What the asynchronous generator [runner.run_async(...)] does when it
    is resumed: it ends, yields an event, or raises. *)
Inductive event_stream : Type :=
| StreamEnd
| StreamYield (event : Event) (rest : event_stream)
| StreamRaise (e : exn).

(** The state the two handlers act on: the queue client, the sessions the
    in-memory session service was asked to create, in order, and the
    number of identifiers drawn from [uuid.uuid4] so far. *)
Record World := {
  tasks_client : CloudTasksClient;
  session_service : list Session;
  uuid_drawn : nat
}.

Definition tasks_client_create_task (parent : string) (task : Task)
  : action World exn unit :=
  fun w =>
    let client := tasks_client w in
    match refuses client parent task with
    | Some e => (Raise e, w)
    | None =>
        (Return tt,
         {| tasks_client :=
              {| tasks := tasks client ++ [(parent, task)];
                 refuses := refuses client |};
            session_service := session_service w;
            uuid_drawn := uuid_drawn w |})
    end.

(** [session_service.create_session(...)] for an identifier that is not in
    use: the session is recorded.  What the in-memory service does with an
    identifier in use is [in_memory_create_session] below. *)
Definition session_service_create_session (app_name session_id user_id : string)
  : action World exn unit :=
  fun w =>
    (Return tt,
     {| tasks_client := tasks_client w;
        session_service :=
          session_service w ++
            [{| session_app_name := app_name; session_user_id := user_id;
                session_session_id := session_id |}];
        uuid_drawn := uuid_drawn w |}).

(** The configuration read from the environment at start (main.py:46-50);
    [None] for a variable that is not set. *)
Record Settings := {
  PROJECT_ID : option string;
  LOCATION_ID : option string;
  QUEUE_ID : option string;
  SERVICE_URL : option string;
  SERVICE_EMAIL : option string
}.

Section Handlers.

Variable settings : Settings.

(** [uuid.uuid4()] as text: the identifier of the n-th draw. *)
Variable uuid4 : nat -> string.

(** The stream [runner.run_async(user_id, session_id, new_message)]
    yields. *)
Variable run_async : string -> string -> Content -> event_stream.

Definition str_uuid4 : action World exn string :=
  fun w =>
    (Return (uuid4 (uuid_drawn w)),
     {| tasks_client := tasks_client w;
        session_service := session_service w;
        uuid_drawn := S (uuid_drawn w) |}).

(** The task descriptor of main.py:133-145 *)
Definition build_task (event_str : string) : Task :=
  {| http_request :=
       {| http_method := POST;
          url := fmt (SERVICE_URL settings) +:+ "/process-asset";
          oidc_token :=
            {| service_account_email := fmt (SERVICE_EMAIL settings);
               audience := fmt (SERVICE_URL settings) +:+ "/process-asset" |};
          headers := {[ "Content-type" := "application/json" ]};
          body := encode event_str |};
     dispatch_deadline := "1800s" |}.

(** main.py:114-157 *)
Definition gcs_trigger (event : GcsEvent) : action World HTTPException Response :=
  try_except
    (let event_str := model_dump_json event in
     let parent :=
       queue_path (PROJECT_ID settings) (LOCATION_ID settings)
         (QUEUE_ID settings) in
     let task := build_task event_str in
     tasks_client_create_task parent task;;
     mret {| status_code := 204; content := None |})
    (fun e =>
       raise {| http_status := 500;
                detail := "Failed to create task: " +:+ str_exn e |}).

(** The loop of main.py:188-203 over the stream, from the text held so
    far. *)
Fixpoint final_response (final_response_text : option string)
    (stream : event_stream) : outcome exn (option string) :=
  match stream with
  | StreamEnd => Return final_response_text
  | StreamRaise e => Raise e
  | StreamYield event rest =>
      if is_final_response event then
        match event_content event with
        | Some {| parts := Some (part :: _) |} => Return (text part)
        | _ =>
            match actions event with
            | Some {| escalate := Some true |} =>
                Return (Some ("Agent escalated: " +:+
                              or_default (error_message event)
                                "No specific message."))
            | _ => Return final_response_text
            end
        end
      else final_response final_response_text rest
  end.

Definition json_of_text (t : option string) : json :=
  match t with
  | Some s => JString s
  | None => JNull
  end.

(** main.py:161-212 *)
Definition process_asset (event : GcsEvent) : action World HTTPException json :=
  try_except
    (let event_str := model_dump_json event in
     session_id ← str_uuid4;
     let user_id := "gcs_trigger_user" in
     session_service_create_session "video_analysis_agent" session_id user_id;;
     final_response_text ←
       lift (final_response (Some "Agent did not produce a final response.")
               (run_async user_id session_id
                  {| role := Some "user";
                     parts := Some [{| text := Some event_str;
                                       inline_data := None |}] |}));
     mret (JObject [("status", JString "success");
                    ("response", json_of_text final_response_text)]))
    (fun e => raise {| http_status := 500; detail := str_exn e |}).

(** *** The two routes, as the web framework serves them

    The body is validated against the declared parameter type before
    the handler is called; a body that fails is answered with status
    422 and the handler is not called.  A raised [HTTPException]
    becomes a response with its status and a "detail" member; a
    returned dictionary becomes the body of a 200 response. *)

Definition error_detail (e : validation_error) : json :=
  match e with
  | MissingBody =>
      JObject [("type", JString "missing"); ("loc", JArray [JString "body"]);
               ("msg", JString "Field required"); ("input", JNull)]
  | NotAnObject input =>
      JObject [("type", JString "model_attributes_type");
               ("loc", JArray [JString "body"]);
               ("msg", JString "Input should be a valid dictionary or object to extract fields from");
               ("input", input)]
  | Missing field input =>
      JObject [("type", JString "missing");
               ("loc", JArray [JString "body"; JString field]);
               ("msg", JString "Field required"); ("input", input)]
  | NotAString field input =>
      JObject [("type", JString "string_type");
               ("loc", JArray [JString "body"; JString field]);
               ("msg", JString "Input should be a valid string");
               ("input", input)]
  end.

Definition unprocessable (errors : list validation_error) : Response :=
  {| status_code := 422;
     content := Some (JObject [("detail", JArray (map error_detail errors))]) |}.

Definition http_error (e : HTTPException) : Response :=
  {| status_code := http_status e;
     content := Some (JObject [("detail", JString (detail e))]) |}.

Definition serve_gcs_trigger (event : GcsEvent) (w : World)
  : Response * World :=
  match gcs_trigger event w with
  | (Return response, w') => (response, w')
  | (Raise e, w') => (http_error e, w')
  end.

Definition serve_process_asset (event : GcsEvent) (w : World)
  : Response * World :=
  match process_asset event w with
  | (Return result, w') =>
      ({| status_code := 200; content := Some result |}, w')
  | (Raise e, w') => (http_error e, w')
  end.

Definition post_gcs_trigger (request_body : json) (w : World)
  : Response * World :=
  match GcsEvent_validate request_body with
  | inl errors => (unprocessable errors, w)
  | inr event => serve_gcs_trigger event w
  end.

Definition post_process_asset (request_body : json) (w : World)
  : Response * World :=
  match GcsEvent_validate request_body with
  | inl errors => (unprocessable errors, w)
  | inr event => serve_process_asset event w
  end.

(** The worker route serving a list of events one after the other. *)
Definition process_all (events : list GcsEvent) (w : World) : World :=
  fold_left (fun w event => snd (serve_process_asset event w)) events w.

End Handlers.

End Main.

Export Main.

(** ** Vocabulary of the statements *)

Module Vocabulary.

(** The text after the last [c] of [s], all of [s] when it has none. *)
Definition last_segment (c : ascii) (s : string) : string :=
  match cut_last c s with
  | Some (_, t) => t
  | None => s
  end.

(** [t] occurs in [s]. *)
Definition occurs_in (t s : string) : Prop :=
  exists before after, s = before +:+ t +:+ after.

(** The content type the adapter stores for a filename. *)
Definition stored_mime_type (guess_type : string -> option string * option string)
    (filename : string) : option string :=
  if bool_decide (fst (guess_type filename) = Some "application/json")
  then Some "text/plain" else fst (guess_type filename).

(** The part the adapter saves for the bytes of a file. *)
Definition saved_part_of (guess_type : string -> option string * option string)
    (file_bytes : list Byte.byte) (filename : string) : Part :=
  {| text := None;
     inline_data :=
       Some {| data := file_bytes;
               mime_type := stored_mime_type guess_type filename |} |}.

(** Fetch the object [blob_name] of [bucket_name] and save it as a new
    version of [filename]. *)
Definition fetch_and_save (guess_type : string -> option string * option string)
    (download_as_bytes : string -> string -> outcome exn (list Byte.byte))
    (bucket_name blob_name filename : string) : action ToolContext exn unit :=
  file_bytes ← lift (download_as_bytes bucket_name blob_name);
  version ← save_artifact filename (saved_part_of guess_type file_bytes filename);
  mret tt.

(** The artifacts an in-memory service holds; none for another service. *)
Definition artifacts_of (ctx : ToolContext) : gmap artifact_path (list Part) :=
  match artifact_service ctx with
  | Some (InMemory artifacts) => artifacts
  | _ => ∅
  end.

Definition part_mime_type (p : Part) : option string :=
  match inline_data p with
  | Some blob => mime_type blob
  | None => None
  end.

(** No version of any artifact has content type application/json. *)
Definition no_json_stored (ctx : ToolContext) : Prop :=
  forall path versions,
    artifacts_of ctx !! path = Some versions ->
    Forall (fun p => part_mime_type p <> Some "application/json") versions.

(** [s.split(c)] *)
Fixpoint split_on (c : ascii) (s : string) : list string :=
  match s with
  | EmptyString => [""]
  | String a s' =>
      if Ascii.eqb a c then "" :: split_on c s'
      else match split_on c s' with
           | h :: t => String a h :: t
           | [] => [String a ""]
           end
  end.

(** The lines of a text. *)
Definition lines (s : string) : list string := split_on "010"%char s.

Definition hyphen_line (filename : string) : string := "- " +:+ filename.

(** The request body is an object whose member [field] is a string. *)
Definition has_string_member (field : string) (request_body : json) : bool :=
  match request_body with
  | JObject members =>
      match member field members with
      | Some (JString _) => true
      | _ => false
      end
  | _ => false
  end.

(** A stream that yields [events] and goes on as [rest]. *)
Definition yield_all (events : list Event) (rest : event_stream) : event_stream :=
  foldr StreamYield rest events.

(** The event carries at least one content part. *)
Definition has_parts (event : Event) : bool :=
  match event_content event with
  | Some {| parts := Some (_ :: _) |} => true
  | _ => false
  end.

Definition escalated (event : Event) : bool :=
  match actions event with
  | Some {| escalate := Some true |} => true
  | _ => false
  end.

Definition digit_value (c : ascii) : option N :=
  let n := N_of_ascii c in
  if ((48 <=? n) && (n <=? 57))%N then Some (n - 48)%N else None.

(** The seconds a duration text of the form digits-then-s stands for. *)
Fixpoint seconds_from (acc : N) (d : string) : option N :=
  match d with
  | EmptyString => None
  | String c EmptyString => if Ascii.eqb c "s"%char then Some acc else None
  | String c d' =>
      match digit_value c with
      | Some v => seconds_from (10 * acc + v)%N d'
      | None => None
      end
  end.
Definition duration_seconds (d : string) : option N :=
  if bool_decide (d = "s") then None else seconds_from 0%N d.

(** *** Reading a task body back

    A reader for the text [model_dump_json] writes, and one for the bytes
    [encode] writes, to state that the body of a task determines the
    event. *)

Definition hex_value (c : ascii) : option N :=
  let n := N_of_ascii c in
  if ((48 <=? n) && (n <=? 57))%N then Some (n - 48)%N
  else if ((97 <=? n) && (n <=? 102))%N then Some (n - 87)%N
  else None.

Definition cons_char (c : ascii) (r : option (string * string))
  : option (string * string) :=
  match r with
  | Some (x, k) => Some (String c x, k)
  | None => None
  end.

(** The JSON string that starts after an opening quote, and the text
    after its closing quote. *)
Fixpoint read_string (s : string) : option (string * string) :=
  match s with
  | EmptyString => None
  | String c s1 =>
      if Ascii.eqb c quote then Some ("", s1)
      else if Ascii.eqb c backslash then
        match s1 with
        | EmptyString => None
        | String e s2 =>
            if Ascii.eqb e quote then cons_char quote (read_string s2)
            else if Ascii.eqb e backslash then cons_char backslash (read_string s2)
            else if Ascii.eqb e "b"%char then cons_char "008"%char (read_string s2)
            else if Ascii.eqb e "f"%char then cons_char "012"%char (read_string s2)
            else if Ascii.eqb e "n"%char then cons_char "010"%char (read_string s2)
            else if Ascii.eqb e "r"%char then cons_char "013"%char (read_string s2)
            else if Ascii.eqb e "t"%char then cons_char "009"%char (read_string s2)
            else if Ascii.eqb e "u"%char then
              match s2 with
              | String h1 (String h2 (String h3 (String h4 s3))) =>
                  match hex_value h3, hex_value h4 with
                  | Some hi, Some lo =>
                      if Ascii.eqb h1 "0"%char && Ascii.eqb h2 "0"%char
                      then cons_char (ascii_of_N (16 * hi + lo)) (read_string s3)
                      else None
                  | _, _ => None
                  end
              | _ => None
              end
            else None
        end
      else if (N_of_ascii c <? 32)%N then None
      else cons_char c (read_string s1)
  end.

(** The text after the prefix [p], when [s] starts with it. *)
Definition expect (p s : string) : option string :=
  if startswith p s then Some (slice_from (String.length p) s) else None.

(** The string value of the member [field] at the head of [s]. *)
Definition read_member (field s : string) : option (string * string) :=
  match expect (dumps_string field +:+ ":" +:+ String quote "") s with
  | Some s1 => read_string s1
  | None => None
  end.

Definition read_event (s : string) : option GcsEvent :=
  match expect "{" s with
  | Some s1 =>
      match read_member "bucket" s1 with
      | Some (b, s2) =>
          match expect "," s2 with
          | Some s3 =>
              match read_member "name" s3 with
              | Some (n, s4) =>
                  if bool_decide (s4 = "}")
                  then Some {| bucket := b; name := n |} else None
              | None => None
              end
          | None => None
          end
      | None => None
      end
  | None => None
  end.

(** The text of UTF-8 bytes, for characters below 256; [lead] is a pending
    first byte of a two-byte sequence. *)
Fixpoint decode_from (lead : option N) (bs : list Byte.byte) : option string :=
  match bs with
  | [] => match lead with None => Some "" | Some _ => None end
  | b :: rest =>
      let n := N_of_ascii (ascii_of_byte b) in
      match lead with
      | None =>
          if (n <? 128)%N then String (ascii_of_N n) <$> decode_from None rest
          else if ((194 <=? n) && (n <? 196))%N then decode_from (Some n) rest
          else None
      | Some l =>
          if ((128 <=? n) && (n <? 192))%N
          then String (ascii_of_N ((l - 192) * 64 + (n - 128)))
                 <$> decode_from None rest
          else None
      end
  end.

Definition decode (bs : list Byte.byte) : option string := decode_from None bs.

(** The event a task body stands for. *)
Definition body_event (bs : list Byte.byte) : option GcsEvent :=
  match decode bs with
  | Some s => read_event s
  | None => None
  end.

(** The world once the queue holds one more task. *)
Definition enqueued (parent : string) (task : Task) (w : World) : World :=
  {| tasks_client :=
       {| tasks := tasks (tasks_client w) ++ [(parent, task)];
          refuses := refuses (tasks_client w) |};
     session_service := session_service w;
     uuid_drawn := uuid_drawn w |}.

(** The session of the worker route with a given identifier. *)
Definition worker_session (session_id : string) : Session :=
  {| session_app_name := "video_analysis_agent";
     session_user_id := "gcs_trigger_user";
     session_session_id := session_id |}.

(** The world once one more identifier is drawn and its session created. *)
Definition session_created (session_id : string) (w : World) : World :=
  {| tasks_client := tasks_client w;
     session_service := session_service w ++ [worker_session session_id];
     uuid_drawn := S (uuid_drawn w) |}.

(** The worker's message to the runner for an event. *)
Definition user_message (event : GcsEvent) : Content :=
  {| role := Some "user";
     parts := Some [{| text := Some (model_dump_json event);
                       inline_data := None |}] |}.

Definition success_body (response : string) : json :=
  JObject [("status", JString "success"); ("response", JString response)].

End Vocabulary.

Export Vocabulary.

(** ** A small concrete setting

    A MIME table, a bucket and a context on which the functions can be
    run. *)

Module Scenario.

Definition mime_table (filename : string) : option string * option string :=
  match cut_last "."%char filename with
  | Some (String _ _, "json") => (Some "application/json", None)
  | Some (String _ _, "pdf") => (Some "application/pdf", None)
  | Some (String _ _, "png") => (Some "image/png", None)
  | Some (String _ _, "mp4") => (Some "video/mp4", None)
  | _ => (None, None)
  end.

Definition some_bytes : list Byte.byte := [Byte.x25; Byte.x50; Byte.x44; Byte.x46].

(** A store with the one bucket [b]; every object of it has the same
    four bytes. *)
Definition bucket_b (bucket_name blob_name : string)
  : outcome exn (list Byte.byte) :=
  if bool_decide (bucket_name = "b") then Return some_bytes
  else Raise (OtherException "NotFound" ("No such object: " +:+ blob_name)).

Definition fresh_context : ToolContext :=
  {| app_name := "video_analysis_agent";
     user_id := "gcs_trigger_user";
     session_id := "6f1c";
     artifact_service := Some (InMemory ∅) |}.

Definition session_path (filename : string) : artifact_path :=
  ("video_analysis_agent", "gcs_trigger_user", SessionScope "6f1c", filename).

(** The same context after the adapter has saved b.png and then a.pdf. *)
Definition two_artifacts_context : ToolContext :=
  snd (add_artifact_from_gcs mime_table bucket_b "gs://b/a.pdf"
         (snd (add_artifact_from_gcs mime_table bucket_b "gs://b/dir/b.png"
                 fresh_context))).

Definition unconfigured_context : ToolContext :=
  {| app_name := "video_analysis_agent";
     user_id := "gcs_trigger_user";
     session_id := "6f1c";
     artifact_service := None |}.

Definition unreachable_context : ToolContext :=
  {| app_name := "video_analysis_agent";
     user_id := "gcs_trigger_user";
     session_id := "6f1c";
     artifact_service :=
       Some (Failing (OtherException "ServiceUnavailable" "503 backend down")) |}.

Definition demo_settings : Settings :=
  {| PROJECT_ID := Some "demo-project";
     LOCATION_ID := Some "us-central1";
     QUEUE_ID := Some "asset-queue";
     SERVICE_URL := Some "https://worker.example";
     SERVICE_EMAIL := Some "invoker@demo-project.iam" |}.

Definition video_event : GcsEvent := {| bucket := "b1"; name := "video.mp4" |}.

(** A queue that accepts every task, and one that is down. *)
Definition idle_world : World :=
  {| tasks_client := {| tasks := []; refuses := fun _ _ => None |};
     session_service := [];
     uuid_drawn := 0 |}.

Definition queue_down_world : World :=
  {| tasks_client :=
       {| tasks := [];
          refuses := fun _ _ =>
            Some (OtherException "ServiceUnavailable" "503 queue down") |};
     session_service := [];
     uuid_drawn := 0 |}.

(** Identifiers that differ from draw to draw. *)
Definition counting_uuid4 (n : nat) : string :=
  String (ascii_of_nat (97 + n)) "-0000".

Definition plain_event : Event :=
  {| event_content := None; actions := None; error_message := None;
     is_final_response := false |}.

Definition empty_final_event : Event :=
  {| event_content := Some {| role := Some "model"; parts := Some [] |};
     actions := Some {| escalate := None |};
     error_message := None;
     is_final_response := true |}.

Definition escalation_event : Event :=
  {| event_content := None;
     actions := Some {| escalate := Some true |};
     error_message := Some "quota exceeded";
     is_final_response := true |}.

(** Runners whose stream has no final response, a final response without
    parts, and an escalation without parts. *)
Definition silent_runner (user_id session_id : string) (new_message : Content)
  : event_stream :=
  StreamYield plain_event StreamEnd.

Definition empty_final_runner (user_id session_id : string)
    (new_message : Content) : event_stream :=
  StreamYield plain_event (StreamYield empty_final_event StreamEnd).

Definition escalating_runner (user_id session_id : string)
    (new_message : Content) : event_stream :=
  StreamYield plain_event (StreamYield escalation_event StreamEnd).

Definition demo_queue : string :=
  "projects/demo-project/locations/us-central1/queues/asset-queue".

Definition saved (mime : option string) : Part :=
  {| text := None;
     inline_data := Some {| data := some_bytes; mime_type := mime |} |}.

End Scenario.

(** ** Runs of several calls *)

Module Runs.

(** The context of another session of the same application and user, over
    the same artifact service. *)
Definition in_session (session : string) (ctx : ToolContext) : ToolContext :=
  {| app_name := app_name ctx;
     user_id := user_id ctx;
     session_id := session;
     artifact_service := artifact_service ctx |}.

(** The enqueue route serving a list of events one after the other. *)
Definition enqueue_all (settings : Settings) (events : list GcsEvent) (w : World)
  : World :=
  fold_left (fun w event => snd (serve_gcs_trigger settings event w)) events w.

(** The queue client accepts whatever it is given. *)
Definition accepts_all (w : World) : Prop :=
  forall parent task, refuses (tasks_client w) parent task = None.

(** The queue and the task the enqueue handler submits for an event. *)
Definition submitted (settings : Settings) (event : GcsEvent) : string * Task :=
  (queue_path (PROJECT_ID settings) (LOCATION_ID settings) (QUEUE_ID settings),
   build_task settings (model_dump_json event)).

(** A runner whose only event is a final response carrying the message it
    was given. *)
Definition echo_runner (user_id session_id : string) (new_message : Content)
  : event_stream :=
  StreamYield
    {| event_content := Some new_message; actions := None;
       error_message := None; is_final_response := true |}
    StreamEnd.

Definition quota_error : exn :=
  OtherException "ResourceExhausted" "429 quota exceeded".

(** A runner that raises after one event that is not final, and one that
    raises after its final response. *)
Definition failing_runner (user_id session_id : string) (new_message : Content)
  : event_stream :=
  StreamYield Scenario.plain_event (StreamRaise quota_error).

Definition late_failing_runner (user_id session_id : string)
    (new_message : Content) : event_stream :=
  StreamYield Scenario.plain_event
    (StreamYield Scenario.empty_final_event (StreamRaise quota_error)).

(** A final response whose first part has no text, whose second part has
    one, and which escalates as well. *)
Definition textless_final_event : Event :=
  {| event_content :=
       Some {| role := Some "model";
               parts := Some [{| text := None; inline_data := None |};
                              {| text := Some "second part";
                                 inline_data := None |}] |};
     actions := Some {| escalate := Some true |};
     error_message := Some "stopped";
     is_final_response := true |}.

Definition textless_runner (user_id session_id : string) (new_message : Content)
  : event_stream :=
  StreamYield Scenario.plain_event (StreamYield textless_final_event StreamEnd).

(** An escalation whose error message is the empty text. *)
Definition wordless_escalation_event : Event :=
  {| event_content := None;
     actions := Some {| escalate := Some true |};
     error_message := Some "";
     is_final_response := true |}.

Definition wordless_runner (user_id session_id : string) (new_message : Content)
  : event_stream :=
  StreamYield Scenario.plain_event
    (StreamYield wordless_escalation_event StreamEnd).

(** The context the adapter leaves when run on a URI from the fresh
    context of the concrete setting. *)
Definition after_saving (uri : string) : ToolContext :=
  snd (add_artifact_from_gcs Scenario.mime_table Scenario.bucket_b uri
         Scenario.fresh_context).

(** The MIME table of the concrete setting, with an encoding reported for
    every file. *)
Definition mime_table_gzip (filename : string) : option string * option string :=
  (fst (Scenario.mime_table filename), Some "gzip").

(** No setting is present in the environment. *)
Definition no_settings : Settings :=
  {| PROJECT_ID := None; LOCATION_ID := None; QUEUE_ID := None;
     SERVICE_URL := None; SERVICE_EMAIL := None |}.

(** The response text the worker takes from a final event. *)
Definition is_200_success (response : Response) (response_value : json) : Prop :=
  response
  = {| status_code := 200;
       content := Some (JObject [("status", JString "success");
                                 ("response", response_value)]) |}.

(** The bucket of the concrete setting once its objects have been
    replaced. *)
Definition later_bytes : list Byte.byte := [Byte.x25; Byte.x50; Byte.x44].

Definition bucket_b_later (bucket_name blob_name : string)
  : outcome exn (list Byte.byte) :=
  if bool_decide (bucket_name = "b") then Return later_bytes
  else Raise (OtherException "NotFound" ("No such object: " +:+ blob_name)).

End Runs.

Export Runs.

(** ** The MIME table of the Python library

    [mimetypes.guess_type], from the library: the type is looked up by the
    extension of the name.  The table of types is a parameter, and so is
    what the library does with a name that starts with a URL scheme of two
    characters or more; a name without such a scheme is treated as a file
    name. *)

Module Mimetypes.

(** [c.lower()] for a character below 256 *)
Definition lower_char (c : ascii) : ascii :=
  let n := N_of_ascii c in
  if (((65 <=? n) && (n <=? 90)) || ((192 <=? n) && (n <=? 214))
      || ((216 <=? n) && (n <=? 222)))%N
  then ascii_of_N (n + 32) else c.

Fixpoint lower (s : string) : string :=
  match s with
  | EmptyString => ""
  | String c s' => String (lower_char c) (lower s')
  end.

Fixpoint all_dots (s : string) : bool :=
  match s with
  | EmptyString => true
  | String c s' => Ascii.eqb c "."%char && all_dots s'
  end.

(** [posixpath.splitext] on a name without a slash: the extension starts
    at the last dot, unless only dots come before it. *)
Definition splitext_name (f : string) : string * string :=
  match cut_last "."%char f with
  | Some (h, t) => if all_dots h then (f, "") else (h, String "."%char t)
  | None => (f, "")
  end.

(** [posixpath.splitext] *)
Definition splitext (p : string) : string * string :=
  match cut_last "/"%char p with
  | Some (d, f) =>
      let '(b, e) := splitext_name f in (d +:+ String "/"%char b, e)
  | None => splitext_name p
  end.

Definition suffix_map (ext : string) : option string :=
  match ext with
  | ".svgz" => Some ".svg.gz"
  | ".tgz" | ".taz" | ".tz" => Some ".tar.gz"
  | ".tbz2" => Some ".tar.bz2"
  | ".txz" => Some ".tar.xz"
  | _ => None
  end.

Definition encodings_map (ext : string) : option string :=
  match ext with
  | ".gz" => Some "gzip"
  | ".Z" => Some "compress"
  | ".bz2" => Some "bzip2"
  | ".xz" => Some "xz"
  | ".br" => Some "br"
  | _ => None
  end.

(** The letters, digits and signs of a URL scheme. *)
Definition scheme_char (c : ascii) : bool :=
  let n := N_of_ascii c in
  (((97 <=? n) && (n <=? 122)) || ((65 <=? n) && (n <=? 90))
   || ((48 <=? n) && (n <=? 57)) || (n =? 43) || (n =? 45) || (n =? 46))%N.

Definition ascii_letter (c : ascii) : bool :=
  let n := N_of_ascii c in
  (((97 <=? n) && (n <=? 122)) || ((65 <=? n) && (n <=? 90)))%N.

Fixpoint all_scheme_chars (s : string) : bool :=
  match s with
  | EmptyString => true
  | String c s' => scheme_char c && all_scheme_chars s'
  end.

(** The scheme a URL starts with, in lower case, and the text after its
    colon. *)
Definition url_scheme (url : string) : option (string * string) :=
  match cut_first ":"%char url with
  | Some (String c s, rest) =>
      if ascii_letter c && all_scheme_chars s
      then Some (lower (String c s), rest) else None
  | _ => None
  end.

Section Table.

(** The table from an extension, dot included, to a type. *)
Variable types_map : string -> option string.

(** The result for a name with a scheme of two characters or more, given
    the scheme and the text after its colon. *)
Variable with_scheme : string -> string -> option string * option string.

(** The type and the encoding of a file name.  No replacement of
    [suffix_map] is itself in that map, so its loop runs at most once. *)
Definition guess_file_type (path : string) : option string * option string :=
  let '(base, ext) := splitext path in
  let '(base, ext) :=
    match suffix_map (lower ext) with
    | Some replacement => splitext (base +:+ replacement)
    | None => (base, ext)
    end in
  let '(encoding, ext) :=
    match encodings_map ext with
    | Some enc => (Some enc, snd (splitext base))
    | None => (None, ext)
    end in
  (types_map (lower ext), encoding).

Definition guess_type (url : string) : option string * option string :=
  match url_scheme url with
  | Some (scheme, rest) =>
      if (1 <? String.length scheme)%nat then with_scheme scheme rest
      else guess_file_type url
  | None => guess_file_type url
  end.

End Table.

(** Some entries of the library's table. *)
Definition common_types (ext : string) : option string :=
  match ext with
  | ".json" => Some "application/json"
  | ".pdf" => Some "application/pdf"
  | ".png" => Some "image/png"
  | ".jpg" | ".jpeg" => Some "image/jpeg"
  | ".gif" => Some "image/gif"
  | ".mp4" => Some "video/mp4"
  | ".mov" => Some "video/quicktime"
  | ".txt" => Some "text/plain"
  | ".csv" => Some "text/csv"
  | ".html" => Some "text/html"
  | _ => None
  end.

(** A stand-in for the names with a scheme, none of which occurs below. *)
Definition no_type_for_schemes (scheme rest : string)
  : option string * option string := (None, None).

Definition library_guess_type : string -> option string * option string :=
  guess_type common_types no_type_for_schemes.

End Mimetypes.

(** ** The in-memory session service and the worker over it *)

Module Sessions.

#[global] Instance Session_eq_dec : EqDecision Session.
Proof. solve_decision. Defined.

(** [InMemorySessionService.create_session] with a given identifier, from
    the library: it refuses an identifier the application and user already
    have a session of, and records the session otherwise.  The identifier
    is taken not to be empty, as the text of a [uuid.uuid4()] is not. *)
Definition in_memory_create_session (app_name session_id user_id : string)
  : action World exn unit :=
  fun w =>
    if bool_decide ({| session_app_name := app_name; session_user_id := user_id;
                       session_session_id := session_id |} ∈ session_service w)
    then (Raise (OtherException "AlreadyExistsError"
                   ("Session with id " +:+ session_id +:+ " already exists.")),
          w)
    else session_service_create_session app_name session_id user_id w.

Section Worker.

(** [session_service.create_session], the service being the one the
    module holds. *)
Variable create_session : string -> string -> string -> action World exn unit.
Variable uuid4 : nat -> string.
Variable run_async : string -> string -> Content -> event_stream.

(** main.py:161-212, over a given session service *)
Definition process_asset_with (event : GcsEvent)
  : action World HTTPException json :=
  try_except
    (let event_str := model_dump_json event in
     session_id ← str_uuid4 uuid4;
     let user_id := "gcs_trigger_user" in
     create_session "video_analysis_agent" session_id user_id;;
     final_response_text ←
       lift (final_response (Some "Agent did not produce a final response.")
               (run_async user_id session_id
                  {| role := Some "user";
                     parts := Some [{| text := Some event_str;
                                       inline_data := None |}] |}));
     mret (JObject [("status", JString "success");
                    ("response", json_of_text final_response_text)]))
    (fun e => raise {| http_status := 500; detail := str_exn e |}).

Definition serve_process_asset_with (event : GcsEvent) (w : World)
  : Response * World :=
  match process_asset_with event w with
  | (Return result, w') =>
      ({| status_code := 200; content := Some result |}, w')
  | (Raise e, w') => (http_error e, w')
  end.

Definition process_all_with (events : list GcsEvent) (w : World) : World :=
  fold_left (fun w event => snd (serve_process_asset_with event w)) events w.

End Worker.

(** The worker route of [main.py], whose session service is the in-memory
    one. *)
Definition worker_route := serve_process_asset_with in_memory_create_session.
Definition worker_run := process_all_with in_memory_create_session.

(** The world after a draw that created no session. *)
Definition drawn_only (w : World) : World :=
  {| tasks_client := tasks_client w;
     session_service := session_service w;
     uuid_drawn := S (uuid_drawn w) |}.

(** Every session of a world is a session of the worker route, and no two
    have the same identifier. *)
Definition distinct_worker_sessions (w : World) : Prop :=
  exists ids, session_service w = map worker_session ids /\ NoDup ids.

(** An identifier generator that gives the same text at every draw. *)
Definition stuck_uuid4 (n : nat) : string := "a-0000".

End Sessions.

Export Sessions.

(** ** Properties *)

(** *** Strings *)

Section StringFacts.

Implicit Types (c a : ascii) (s t x y : string).

Lemma app_String a s t : String a s +:+ t = String a (s +:+ t).
Proof. reflexivity. Qed.

Lemma app_empty_l s : "" +:+ s = s.
Proof. reflexivity. Qed.

Lemma slice_from_app x s : slice_from (String.length x) (x +:+ s) = s.
Proof. induction x as [|a x IH]; [done|]. rewrite app_String. apply IH. Qed.

Lemma cut_first_None c s : cut_first c s = None <-> contains c s = false.
Proof.
  induction s as [|a s IH]; simpl; [done|].
  destruct (Ascii.eqb a c); [done|].
  destruct (cut_first c s) as [[h t]|]; [|exact IH].
  split; [done|]. intros H. by apply IH in H.
Qed.

Lemma cut_first_app c x y :
  contains c x = false -> cut_first c (x +:+ String c y) = Some (x, y).
Proof.
  induction x as [|a x IH]; intros H.
  - rewrite app_empty_l. simpl. by rewrite Ascii.eqb_refl.
  - rewrite app_String. simpl in *. destruct (Ascii.eqb a c); [done|].
    by rewrite (IH H).
Qed.

Lemma cut_last_Some c s : contains c s = true -> is_Some (cut_last c s).
Proof.
  induction s as [|a s IH]; simpl; [done|].
  destruct (Ascii.eqb a c) eqn:E; intros H.
  - destruct (cut_last c s) as [[h t]|]; eauto.
  - destruct (IH H) as [[h t] ->]. eauto.
Qed.

Lemma cut_last_app c x y h t :
  cut_last c y = Some (h, t) -> cut_last c (x +:+ y) = Some (x +:+ h, t).
Proof.
  intros H. induction x as [|a x IH]; [done|].
  rewrite !app_String. simpl. by rewrite IH.
Qed.

Lemma last_segment_app c x y :
  contains c y = true -> last_segment c (x +:+ y) = last_segment c y.
Proof.
  intros H. destruct (cut_last_Some c y H) as [[h t] E].
  unfold last_segment. by rewrite (cut_last_app c x y h t E), E.
Qed.

Lemma last_segment_String c y : last_segment c (String c y) = last_segment c y.
Proof.
  unfold last_segment. simpl.
  destruct (cut_last c y) as [[h t]|]; [done|]. by rewrite Ascii.eqb_refl.
Qed.

Lemma contains_String c y : contains c (String c y) = true.
Proof. simpl. by rewrite Ascii.eqb_refl. Qed.

Lemma contains_app_r c x y : contains c y = true -> contains c (x +:+ y) = true.
Proof.
  intros H. induction x as [|a x IH]; [done|].
  rewrite app_String. simpl. by destruct (Ascii.eqb a c).
Qed.

(** [uri.rsplit('/', 1)[-1]] is the last segment. *)
Lemma item_last_rsplit1 c s : item_last (rsplit1 c s) = Return (last_segment c s).
Proof.
  unfold rsplit1, last_segment. by destruct (cut_last c s) as [[h t]|].
Qed.

Lemma split1_app c x y :
  contains c x = false -> split1 c (x +:+ String c y) = [x; y].
Proof. intros H. unfold split1. by rewrite cut_first_app. Qed.

Lemma split1_absent c s : contains c s = false -> split1 c s = [s].
Proof. intros H. unfold split1. by apply cut_first_None in H as ->. Qed.

Lemma slice_from_length_app n x s :
  String.length x = n -> slice_from n (x +:+ s) = s.
Proof. intros <-. apply slice_from_app. Qed.

End StringFacts.

(** *** The artifact store adapter *)

(** Exposes the state passing behind the monadic notation. *)
Ltac unfold_action :=
  unfold mret, mbind, action_ret, action_bind,
    Py.ret, Py.bind, Py.lift, Py.raise, Py.try_except in *.

Lemma cut_first_Some c s :
  contains c s = true -> exists h t, cut_first c s = Some (h, t).
Proof.
  intros H. destruct (cut_first c s) as [[h t]|] eqn:E; [eauto|].
  apply cut_first_None in E. congruence.
Qed.

(** What saving into an in-memory service leaves behind. *)
Lemma save_artifact_in_memory filename artifact ctx artifacts :
  artifact_service ctx = Some (InMemory artifacts) ->
  save_artifact filename artifact ctx
  = (Return (List.length (default [] (artifacts !! artifact_path_of ctx filename))),
     with_artifacts ctx
       (<[artifact_path_of ctx filename :=
            default [] (artifacts !! artifact_path_of ctx filename) ++ [artifact]]>
          artifacts)).
Proof. intros H. unfold save_artifact. by rewrite H. Qed.

Lemma save_artifact_raise filename artifact ctx e ctx' :
  save_artifact filename artifact ctx = (Raise e, ctx') -> ctx' = ctx.
Proof.
  unfold save_artifact.
  destruct (artifact_service ctx) as [[artifacts|e']|]; intros H; by simplify_eq.
Qed.

Lemma save_artifact_return filename artifact ctx v ctx' :
  save_artifact filename artifact ctx = (Return v, ctx') ->
  exists artifacts, artifact_service ctx = Some (InMemory artifacts).
Proof.
  unfold save_artifact.
  destruct (artifact_service ctx) as [[artifacts|e']|]; intros H;
    simplify_eq; eauto.
Qed.

Section Adapter.

Variable guess_type : string -> option string * option string.
Variable download_as_bytes : string -> string -> outcome exn (list Byte.byte).

Local Abbreviation add_artifact :=
  (add_artifact_from_gcs guess_type download_as_bytes).
Local Abbreviation fetch_save := (fetch_and_save guess_type download_as_bytes).
Local Abbreviation saved_part := (saved_part_of guess_type).

(** Once the text after the first five characters splits at a slash, the
    adapter fetches that bucket and object and saves under the last
    segment of the whole URI. *)
Lemma add_artifact_split uri bucket_name blob_name ctx :
  split1 slash (slice_from 5 uri) = [bucket_name; blob_name] ->
  add_artifact uri ctx
  = fetch_save bucket_name blob_name (last_segment slash uri) ctx.
Proof.
  intros Hsplit. unfold add_artifact_from_gcs, fetch_and_save.
  change (String.length "gs://") with 5. rewrite Hsplit.
  unfold_action; simpl.
  destruct (download_as_bytes bucket_name blob_name) as [file_bytes|e]; [|done].
  rewrite item_last_rsplit1. unfold saved_part_of, stored_mime_type.
  by destruct (guess_type (last_segment slash uri)) as [mime_type encoding].
Qed.

Lemma add_artifact_no_slash uri ctx :
  contains slash (slice_from 5 uri) = false ->
  add_artifact uri ctx
  = (Raise (ValueError "not enough values to unpack (expected 2, got 1)"), ctx).
Proof.
  intros H. unfold add_artifact_from_gcs.
  change (String.length "gs://") with 5. by rewrite (split1_absent _ _ H).
Qed.

Lemma fetch_save_raise bucket_name blob_name filename ctx e ctx' :
  fetch_save bucket_name blob_name filename ctx = (Raise e, ctx') -> ctx' = ctx.
Proof.
  unfold fetch_and_save. unfold_action.
  destruct (download_as_bytes bucket_name blob_name) as [file_bytes|e'];
    [|intros H; by simplify_eq].
  destruct (save_artifact _ _ ctx) as [[v|e'] ctx''] eqn:E; intros H.
  - discriminate H.
  - apply save_artifact_raise in E. by simplify_eq.
Qed.

Lemma fetch_save_return bucket_name blob_name filename ctx ctx' :
  fetch_save bucket_name blob_name filename ctx = (Return tt, ctx') ->
  exists artifacts file_bytes,
    artifact_service ctx = Some (InMemory artifacts) /\
    download_as_bytes bucket_name blob_name = Return file_bytes /\
    ctx' = with_artifacts ctx
             (<[artifact_path_of ctx filename :=
                  default [] (artifacts !! artifact_path_of ctx filename)
                    ++ [saved_part file_bytes filename]]> artifacts).
Proof.
  unfold fetch_and_save. unfold_action.
  destruct (download_as_bytes bucket_name blob_name) as [file_bytes|e'];
    [|intros H; by simplify_eq].
  destruct (save_artifact _ _ ctx) as [[v|e'] ctx''] eqn:E; intros H;
    [|discriminate H].
  destruct (save_artifact_return _ _ _ _ _ E) as [artifacts Hs].
  rewrite (save_artifact_in_memory _ _ _ _ Hs) in E.
  exists artifacts, file_bytes. by simplify_eq.
Qed.

(** Every run of the adapter either raises and leaves the context as it
    was, or fetches some object and saves it under the last segment. *)
Lemma add_artifact_cases uri ctx :
  (exists e, add_artifact uri ctx = (Raise e, ctx))
  \/ (exists bucket_name blob_name,
        split1 slash (slice_from 5 uri) = [bucket_name; blob_name] /\
        add_artifact uri ctx
        = fetch_save bucket_name blob_name (last_segment slash uri) ctx).
Proof.
  destruct (contains slash (slice_from 5 uri)) eqn:E.
  - right. destruct (cut_first_Some _ _ E) as (h & t & Hc).
    exists h, t. assert (Hs : split1 slash (slice_from 5 uri) = [h; t])
      by (unfold split1; by rewrite Hc).
    split; [done|]. by apply add_artifact_split.
  - left. eexists. by apply add_artifact_no_slash.
Qed.

Lemma add_artifact_raise uri ctx e ctx' :
  add_artifact uri ctx = (Raise e, ctx') -> ctx' = ctx.
Proof.
  destruct (add_artifact_cases uri ctx) as [[e' H]|(b & n & _ & H)];
    rewrite H; intros H'.
  - by simplify_eq.
  - by apply fetch_save_raise in H'.
Qed.

Lemma stored_mime_type_not_json filename :
  stored_mime_type guess_type filename <> Some "application/json".
Proof. unfold stored_mime_type. by case_bool_decide. Qed.

Lemma stored_mime_type_json filename :
  fst (guess_type filename) = Some "application/json" ->
  stored_mime_type guess_type filename = Some "text/plain".
Proof. intros H. unfold stored_mime_type. by rewrite bool_decide_eq_true_2. Qed.

(** C6. For the URI gs://b/dir/name.pdf the adapter fetches the object
    dir/name.pdf of the bucket b and saves it under the filename name.pdf,
    in the namespace of the current session; with an in-memory service and
    an object that can be read, the outcome is one more version at the
    session's path for name.pdf.  In general, for a bucket name without a
    slash and any object path, the adapter fetches that object of that
    bucket and saves it under the last segment of the object path. *)
Theorem add_artifact_from_gcs_decomposition :
  (forall ctx,
     add_artifact "gs://b/dir/name.pdf" ctx
     = fetch_save "b" "dir/name.pdf" "name.pdf" ctx
     /\ artifact_path_of ctx "name.pdf"
        = (app_name ctx, user_id ctx, SessionScope (session_id ctx), "name.pdf"))
  /\ (forall ctx artifacts file_bytes,
        artifact_service ctx = Some (InMemory artifacts) ->
        download_as_bytes "b" "dir/name.pdf" = Return file_bytes ->
        let path :=
          (app_name ctx, user_id ctx, SessionScope (session_id ctx), "name.pdf") in
        add_artifact "gs://b/dir/name.pdf" ctx
        = (Return tt,
           with_artifacts ctx
             (<[path := default [] (artifacts !! path)
                          ++ [saved_part file_bytes "name.pdf"]]> artifacts)))
  /\ (forall bucket_name blob_name ctx,
        contains slash bucket_name = false ->
        add_artifact ("gs://" +:+ bucket_name +:+ "/" +:+ blob_name) ctx
        = fetch_save bucket_name blob_name (last_segment slash blob_name) ctx).
Proof.
  assert (Hgen : forall bucket_name blob_name ctx,
             contains slash bucket_name = false ->
             add_artifact ("gs://" +:+ bucket_name +:+ "/" +:+ blob_name) ctx
             = fetch_save bucket_name blob_name (last_segment slash blob_name) ctx).
  { intros bucket_name blob_name ctx Hb.
    rewrite (add_artifact_split _ bucket_name blob_name).
    - f_equal.
      change ("/" +:+ blob_name) with (String slash blob_name).
      rewrite (last_segment_app slash "gs://"),
        (last_segment_app slash bucket_name), last_segment_String;
        auto using contains_String, contains_app_r.
    - change 5 with (String.length "gs://"). rewrite slice_from_app.
      by apply split1_app. }
  split; [|split; [|exact Hgen]].
  - intros ctx. split; [|done]. exact (Hgen "b" "dir/name.pdf" ctx eq_refl).
  - intros ctx artifacts file_bytes Hs Hd path.
    etrans; [exact (Hgen "b" "dir/name.pdf" ctx eq_refl)|].
    change (last_segment slash "dir/name.pdf") with "name.pdf".
    unfold fetch_and_save. unfold_action. rewrite Hd.
    by rewrite (save_artifact_in_memory _ _ _ _ Hs).
Qed.

(** Whenever the adapter saves an artifact, the version it appends does
    not have content type application/json, and has text/plain when the
    type inferred for the filename is application/json; a store free of
    application/json versions stays so through any call. *)
Lemma add_artifact_appended_type :
  (forall uri ctx ctx',
     add_artifact uri ctx = (Return tt, ctx') ->
     exists artifacts earlier blob,
       artifact_service ctx = Some (InMemory artifacts) /\
       artifacts_of ctx'
       = <[artifact_path_of ctx (last_segment slash uri) :=
             earlier ++ [{| text := None; inline_data := Some blob |}]]> artifacts /\
       mime_type blob <> Some "application/json" /\
       (fst (guess_type (last_segment slash uri)) = Some "application/json" ->
        mime_type blob = Some "text/plain"))
  /\ (forall uri ctx,
        no_json_stored ctx -> no_json_stored (snd (add_artifact uri ctx))).
Proof.
  assert (Hret : forall uri ctx ctx',
             add_artifact uri ctx = (Return tt, ctx') ->
             exists artifacts file_bytes,
               artifact_service ctx = Some (InMemory artifacts) /\
               ctx' = with_artifacts ctx
                 (<[artifact_path_of ctx (last_segment slash uri) :=
                      default [] (artifacts !! artifact_path_of ctx
                                                  (last_segment slash uri))
                        ++ [saved_part file_bytes (last_segment slash uri)]]>
                    artifacts)).
  { intros uri ctx ctx' H.
    destruct (add_artifact_cases uri ctx) as [[e He]|(b & n & _ & Hf)].
    - rewrite He in H. discriminate H.
    - rewrite Hf in H.
      destruct (fetch_save_return _ _ _ _ _ H) as (m & bs & Hs & _ & ->). eauto. }
  split.
  - intros uri ctx ctx' H.
    destruct (Hret _ _ _ H) as (artifacts & file_bytes & Hs & ->).
    eexists artifacts, _, _. split; [done|]. split; [reflexivity|].
    split; simpl; auto using stored_mime_type_not_json, stored_mime_type_json.
  - intros uri ctx Hinv.
    destruct (add_artifact uri ctx) as [[[]|e] ctx'] eqn:E; simpl.
    + destruct (Hret _ _ _ E) as (artifacts & file_bytes & Hs & ->).
      intros path versions. unfold artifacts_of; simpl.
      assert (Hold : artifacts_of ctx = artifacts)
        by (unfold artifacts_of; by rewrite Hs).
      rewrite lookup_insert. case_decide as Hp; intros Hl.
      * injection Hl as <-. apply Forall_app. split.
        -- destruct (artifacts !! _) as [old|] eqn:El; simpl; [|constructor].
           apply (Hinv (artifact_path_of ctx (last_segment slash uri))).
           by rewrite Hold.
        -- repeat constructor. simpl. apply stored_mime_type_not_json.
      * apply (Hinv path). by rewrite Hold.
    + apply add_artifact_raise in E. by subst.
Qed.

(** C2, as the code has it.  The adapter raises, before it reads any
    object and without saving anything, when the text after the first five
    characters of the URI has no slash; the exception is the [ValueError]
    of the failed unpacking.  The first five characters themselves are not
    looked at: any five characters in place of gs:// give the same run.
    Whenever the adapter raises, the context is as it was. *)
Theorem add_artifact_from_gcs_malformed_uri :
  (forall uri ctx,
     contains slash (slice_from 5 uri) = false ->
     add_artifact uri ctx
     = (Raise (ValueError "not enough values to unpack (expected 2, got 1)"), ctx))
  /\ (forall prefix rest ctx,
        String.length prefix = 5 ->
        contains slash rest = true ->
        add_artifact (prefix +:+ rest) ctx = add_artifact ("gs://" +:+ rest) ctx)
  /\ (forall uri ctx e ctx',
        add_artifact uri ctx = (Raise e, ctx') -> ctx' = ctx).
Proof.
  split; [exact add_artifact_no_slash|split; [|exact add_artifact_raise]].
  intros prefix rest ctx Hlen Hrest.
  destruct (cut_first_Some _ _ Hrest) as (h & t & Hc).
  assert (Hs : split1 slash rest = [h; t]) by (unfold split1; by rewrite Hc).
  rewrite (add_artifact_split (prefix +:+ rest) h t),
    (add_artifact_split ("gs://" +:+ rest) h t).
  - by rewrite !last_segment_app.
  - change 5 with (String.length "gs://"). by rewrite slice_from_app.
  - by rewrite slice_from_length_app.
Qed.

End Adapter.

Import Scenario.

Lemma no_json_stored_fresh : no_json_stored fresh_context.
Proof. intros path versions H. unfold artifacts_of in H. simpl in H. done. Qed.

(** The adapter run on a URI of another scheme: it saves the object. *)
Lemma add_artifact_from_gcs_accepts_other_scheme :
  startswith "gs://" "s3://b/dir/name.pdf" = false
  /\ add_artifact_from_gcs mime_table bucket_b "s3://b/dir/name.pdf" fresh_context
     = (Return tt,
        with_artifacts fresh_context
          {[ session_path "name.pdf" := [saved (Some "application/pdf")] ]}).
Proof. split; [reflexivity|]. vm_compute. reflexivity. Qed.

Lemma add_artifact_from_gcs_malformed_uri_witness :
  add_artifact_from_gcs mime_table bucket_b "gs://bucket-only" fresh_context
  = (Raise (ValueError "not enough values to unpack (expected 2, got 1)"),
     fresh_context)
  /\ add_artifact_from_gcs mime_table bucket_b "s3://b/dir/name.pdf" fresh_context
     = add_artifact_from_gcs mime_table bucket_b "gs://b/dir/name.pdf" fresh_context
  /\ (forall e ctx',
        add_artifact_from_gcs mime_table bucket_b "gs://bucket-only" fresh_context
        = (Raise e, ctx') -> ctx' = fresh_context).
Proof.
  pose proof (add_artifact_from_gcs_malformed_uri mime_table bucket_b)
    as (Hno & Hprefix & Hraise).
  split; [|split].
  - exact (Hno "gs://bucket-only" fresh_context eq_refl).
  - exact (Hprefix "s3://" "b/dir/name.pdf" fresh_context eq_refl eq_refl).
  - exact (Hraise "gs://bucket-only" fresh_context).
Defined.

Lemma add_artifact_from_gcs_decomposition_witness :
  add_artifact_from_gcs mime_table bucket_b
    "gs://my-doc-bucket/reports/q1_report.pdf" fresh_context
  = fetch_and_save mime_table bucket_b "my-doc-bucket" "reports/q1_report.pdf"
      "q1_report.pdf" fresh_context
  /\ add_artifact_from_gcs mime_table bucket_b "gs://b/dir/name.pdf" fresh_context
     = (Return tt,
        with_artifacts fresh_context
          (<[session_path "name.pdf" := [saved (Some "application/pdf")]]> ∅)).
Proof.
  pose proof (add_artifact_from_gcs_decomposition mime_table bucket_b)
    as (_ & Hmem & Hgen).
  split.
  - exact (Hgen "my-doc-bucket" "reports/q1_report.pdf" fresh_context eq_refl).
  - exact (Hmem fresh_context ∅ some_bytes eq_refl eq_refl).
Defined.

(** *** The artifact listing tool *)

Section Listing.

Implicit Types (ctx : ToolContext) (files : list string).

Lemma context_list_artifacts_state ctx : snd (context_list_artifacts ctx) = ctx.
Proof.
  unfold context_list_artifacts.
  by destruct (artifact_service ctx) as [[artifacts|e]|].
Qed.

(** The tool, by the outcome of the context's listing. *)
Lemma list_artifacts_by_outcome ctx :
  list_artifacts ctx
  = (Return
       match fst (context_list_artifacts ctx) with
       | Return [] => "You have no saved artifacts."
       | Return files =>
           "Here are your available Python artifacts:" +:+ newline
             +:+ join newline (map hyphen_line files)
       | Raise (ValueError _) => "Error: Could not list Python artifacts."
       | Raise (OtherException _ _) =>
           "Error: An unexpected error occurred while listing Python artifacts."
       end, ctx).
Proof.
  pose proof (context_list_artifacts_state ctx) as Hst.
  unfold list_artifacts. unfold_action.
  destruct (context_list_artifacts ctx) as [[files|e] ctx']; simpl in *; subst ctx'.
  - by destruct files.
  - by destruct e.
Qed.

Lemma split_on_absent c s : contains c s = false -> split_on c s = [s].
Proof.
  induction s as [|a s IH]; simpl; [done|].
  destruct (Ascii.eqb a c); [done|]. intros H. by rewrite (IH H).
Qed.

Lemma split_on_app c x y :
  contains c x = false -> split_on c (x +:+ String c y) = x :: split_on c y.
Proof.
  induction x as [|a x IH]; intros H.
  - rewrite app_empty_l. simpl. by rewrite Ascii.eqb_refl.
  - rewrite app_String. simpl in *. destruct (Ascii.eqb a c); [done|].
    by rewrite (IH H).
Qed.

(** Joining with a line feed and cutting into lines again gives the
    entries back, when no entry has a line feed. *)
Lemma lines_join (l : list string) :
  l <> [] ->
  Forall (fun x => contains "010"%char x = false) l ->
  lines (join newline l) = l.
Proof.
  unfold lines. induction l as [|x l IH]; [done|]. intros _ Hall.
  apply Forall_cons in Hall as [Hx Hl].
  destruct l as [|y l]; simpl.
  - by apply split_on_absent.
  - change (newline +:+ ?s) with (String "010"%char s).
    rewrite (split_on_app _ _ _ Hx). f_equal. by apply IH.
Qed.

Lemma hyphen_line_no_newline (f : string) :
  contains "010"%char f = false -> contains "010"%char (hyphen_line f) = false.
Proof. done. Qed.

(** C7. The listing tool returns a sentence in every state of the
    artifact service and leaves the context as it was.  When the service
    lists nothing, the sentence is the fixed one; when it lists files, the
    result is a heading followed by one line per file, the file's name
    after a hyphen, in the order of the service (given that no name holds a
    line feed, the lines after the heading are exactly these); for the files
    a.pdf and b.png it is the heading and the two lines.  When the
    service raises a [ValueError], or any other exception, the tool returns
    the matching error sentence. *)
Theorem list_artifacts_never_raises :
  (forall ctx, exists sentence, list_artifacts ctx = (Return sentence, ctx))
  /\ (forall ctx,
        fst (context_list_artifacts ctx) = Return [] ->
        list_artifacts ctx = (Return "You have no saved artifacts.", ctx))
  /\ (forall ctx files,
        files <> [] ->
        fst (context_list_artifacts ctx) = Return files ->
        exists listing,
          list_artifacts ctx = (Return listing, ctx) /\
          listing = "Here are your available Python artifacts:" +:+ newline
                      +:+ join newline (map hyphen_line files) /\
          (Forall (fun f => contains "010"%char f = false) files ->
           lines listing
           = "Here are your available Python artifacts:" :: map hyphen_line files))
  /\ list_artifacts two_artifacts_context
     = (Return ("Here are your available Python artifacts:" +:+ newline
                  +:+ "- a.pdf" +:+ newline +:+ "- b.png"),
        two_artifacts_context)
  /\ (forall ctx msg,
        fst (context_list_artifacts ctx) = Raise (ValueError msg) ->
        list_artifacts ctx = (Return "Error: Could not list Python artifacts.", ctx))
  /\ (forall ctx cls msg,
        fst (context_list_artifacts ctx) = Raise (OtherException cls msg) ->
        list_artifacts ctx
        = (Return "Error: An unexpected error occurred while listing Python artifacts.",
           ctx)).
Proof.
  split; [|split; [|split; [|split; [|split]]]].
  - intros ctx. rewrite list_artifacts_by_outcome. eauto.
  - intros ctx H. by rewrite list_artifacts_by_outcome, H.
  - intros ctx files Hne H. eexists. split; [|split; [reflexivity|]].
    + rewrite list_artifacts_by_outcome, H. by destruct files.
    + intros Hall. destruct files as [|f files]; [done|].
      change (lines (join newline
                       ("Here are your available Python artifacts:"
                          :: map hyphen_line (f :: files)))
              = "Here are your available Python artifacts:"
                  :: map hyphen_line (f :: files)).
      apply lines_join; [done|]. constructor; [done|].
      apply Forall_map. eapply Forall_impl; [exact Hall|].
      intros x Hx. by apply hyphen_line_no_newline.
  - vm_compute. reflexivity.
  - intros ctx msg H. by rewrite list_artifacts_by_outcome, H.
  - intros ctx cls msg H. by rewrite list_artifacts_by_outcome, H.
Qed.

End Listing.

Lemma list_artifacts_never_raises_witness :
  list_artifacts fresh_context
  = (Return "You have no saved artifacts.", fresh_context)
  /\ (exists listing,
        list_artifacts two_artifacts_context = (Return listing, two_artifacts_context) /\
        listing = "Here are your available Python artifacts:" +:+ newline
                    +:+ join newline (map hyphen_line ["a.pdf"; "b.png"]) /\
        (Forall (fun f => contains "010"%char f = false) ["a.pdf"; "b.png"] ->
         lines listing
         = "Here are your available Python artifacts:"
             :: map hyphen_line ["a.pdf"; "b.png"]))
  /\ list_artifacts unconfigured_context
     = (Return "Error: Could not list Python artifacts.", unconfigured_context)
  /\ list_artifacts unreachable_context
     = (Return "Error: An unexpected error occurred while listing Python artifacts.",
        unreachable_context).
Proof.
  pose proof list_artifacts_never_raises
    as (_ & Hempty & Hfiles & _ & Hvalue & Hother).
  split; [|split; [|split]].
  - apply (Hempty fresh_context). vm_compute. reflexivity.
  - apply (Hfiles two_artifacts_context ["a.pdf"; "b.png"]); [discriminate|].
    vm_compute. reflexivity.
  - apply (Hvalue unconfigured_context "Artifact service is not initialized.").
    reflexivity.
  - apply (Hother unreachable_context "ServiceUnavailable" "503 backend down").
    reflexivity.
Defined.

(** *** The BigQuery toolset *)

(** C1, at the code.  The configuration handed to the toolset has the
    write mode that allows every write operation, neither of the two
    restricted modes. *)
Theorem bigquery_toolset_write_mode :
  forall (Credentials : Type) (credentials : Credentials),
    write_mode (bigquery_tool_config (bigquery_toolset credentials)) = ALLOWED
    /\ write_mode (bigquery_tool_config (bigquery_toolset credentials)) <> BLOCKED
    /\ write_mode (bigquery_tool_config (bigquery_toolset credentials)) <> PROTECTED.
Proof. intros Credentials credentials. by repeat split. Qed.

(** *** The HTTP front door *)

Section FrontDoor.

Variable settings : Settings.
Variable uuid4 : nat -> string.
Variable run_async : string -> string -> Content -> event_stream.

Implicit Types (event : GcsEvent) (w : World).

Local Abbreviation parent_queue :=
  (queue_path (PROJECT_ID settings) (LOCATION_ID settings) (QUEUE_ID settings)).

Lemma string_app_assoc (x y z : string) : (x +:+ y) +:+ z = x +:+ y +:+ z.
Proof. induction x as [|a x IH]; [done|]. by rewrite !app_String, IH. Qed.

Lemma startswith_app (p s : string) : startswith p (p +:+ s) = true.
Proof.
  induction p as [|a p IH]; [done|].
  rewrite app_String. simpl. by rewrite Ascii.eqb_refl.
Qed.

Lemma expect_app (p s : string) : expect p (p +:+ s) = Some s.
Proof. unfold expect. by rewrite startswith_app, slice_from_app. Qed.

Lemma read_string_escape_char c (k : string) :
  read_string (escape_char c +:+ k) = cons_char c (read_string k).
Proof. destruct c as [[] [] [] [] [] [] [] []]; reflexivity. Qed.

Lemma read_string_escape (s k : string) :
  read_string (escape s +:+ String quote k) = Some (s, k).
Proof.
  induction s as [|c s IH]; [done|].
  cbn [escape]. by rewrite string_app_assoc, read_string_escape_char, IH.
Qed.

Lemma dumps_string_app (s k : string) :
  dumps_string s +:+ k = String quote (escape s +:+ String quote k).
Proof. unfold dumps_string. by rewrite app_String, string_app_assoc. Qed.

Lemma read_member_dumps (field value k : string) :
  read_member field (dumps_string field +:+ ":" +:+ dumps_string value +:+ k)
  = Some (value, k).
Proof.
  unfold read_member. rewrite (dumps_string_app value).
  set (r := escape value +:+ String quote k).
  replace (dumps_string field +:+ ":" +:+ String quote r)
    with ((dumps_string field +:+ ":" +:+ String quote "") +:+ r)
    by (by rewrite string_app_assoc).
  rewrite expect_app. apply read_string_escape.
Qed.

(** The JSON text of an event reads back as the event. *)
Lemma read_event_model_dump_json event : read_event (model_dump_json event) = Some event.
Proof.
  unfold read_event, model_dump_json. rewrite expect_app, read_member_dumps.
  rewrite expect_app, read_member_dumps. by destruct event.
Qed.

Lemma decode_encode_char c (bs : list Byte.byte) :
  decode_from None (encode_char c ++ bs) = String c <$> decode_from None bs.
Proof. destruct c as [[] [] [] [] [] [] [] []]; reflexivity. Qed.

Lemma decode_encode (s : string) : decode (encode s) = Some s.
Proof.
  unfold decode. induction s as [|c s IH]; [done|].
  simpl. by rewrite decode_encode_char, IH.
Qed.

(** The body of a task determines the event. *)
Lemma body_event_encode event :
  body_event (encode (model_dump_json event)) = Some event.
Proof. unfold body_event. by rewrite decode_encode, read_event_model_dump_json. Qed.

(** The enqueue handler, by the answer of the queue client. *)
Lemma gcs_trigger_by_answer event w :
  gcs_trigger settings event w
  = match refuses (tasks_client w) parent_queue
            (build_task settings (model_dump_json event)) with
    | None =>
        (Return {| status_code := 204; content := None |},
         enqueued parent_queue (build_task settings (model_dump_json event)) w)
    | Some e =>
        (Raise {| http_status := 500;
                  detail := "Failed to create task: " +:+ str_exn e |}, w)
    end.
Proof.
  unfold gcs_trigger, tasks_client_create_task. unfold_action.
  by destruct (refuses _ _ _).
Qed.

Lemma occurs_in_suffix (t before : string) : occurs_in t (before +:+ t).
Proof.
  exists before, "". f_equal. induction t as [|a t IH]; [done|].
  rewrite app_String. by rewrite <- IH.
Qed.

(** C3. When the queue client accepts the task, the enqueue route
    answers 204 with an empty body and the queue holds the task; when the
    client raises, the route answers 500 with a body whose detail contains
    the text of the exception, and nothing is enqueued. *)
Theorem gcs_trigger_status event w :
  (refuses (tasks_client w) parent_queue
     (build_task settings (model_dump_json event)) = None ->
   serve_gcs_trigger settings event w
   = ({| status_code := 204; content := None |},
      enqueued parent_queue (build_task settings (model_dump_json event)) w))
  /\ (forall e,
        refuses (tasks_client w) parent_queue
          (build_task settings (model_dump_json event)) = Some e ->
        exists detail_text,
          serve_gcs_trigger settings event w
          = ({| status_code := 500;
                content := Some (JObject [("detail", JString detail_text)]) |}, w)
          /\ occurs_in (str_exn e) detail_text).
Proof.
  unfold serve_gcs_trigger. rewrite gcs_trigger_by_answer. split.
  - by intros ->.
  - intros e ->. eexists. split; [reflexivity|]. apply occurs_in_suffix.
Qed.

(** C4. The task the enqueue handler submits for an event: method POST,
    the service URL followed by /process-asset as target, an OIDC token
    with that same URL as audience, the header Content-type:
    application/json, the encoded JSON text of the event as body (a body
    that reads back as the event), and the deadline text 1800s, which
    reads as 1800 seconds. *)
Theorem gcs_trigger_task_descriptor event w service_url :
  SERVICE_URL settings = Some service_url ->
  refuses (tasks_client w) parent_queue
    (build_task settings (model_dump_json event)) = None ->
  exists task,
    tasks (tasks_client (snd (gcs_trigger settings event w)))
    = tasks (tasks_client w) ++ [(parent_queue, task)]
    /\ http_method (http_request task) = POST
    /\ url (http_request task) = service_url +:+ "/process-asset"
    /\ audience (oidc_token (http_request task)) = url (http_request task)
    /\ headers (http_request task) !! "Content-type" = Some "application/json"
    /\ body (http_request task) = encode (model_dump_json event)
    /\ body_event (body (http_request task)) = Some event
    /\ dispatch_deadline task = "1800s"
    /\ duration_seconds (dispatch_deadline task) = Some 1800%N.
Proof.
  intros Hurl Hacc. rewrite gcs_trigger_by_answer, Hacc.
  exists (build_task settings (model_dump_json event)).
  unfold build_task; simpl. rewrite Hurl.
  repeat split. apply body_event_encode.
Qed.

(** The worker handler, by the stream of the runner. *)
Lemma serve_process_asset_by_stream event w :
  serve_process_asset uuid4 run_async event w
  = (match final_response (Some "Agent did not produce a final response.")
             (run_async "gcs_trigger_user" (uuid4 (uuid_drawn w))
                (user_message event)) with
     | Return final_response_text =>
         {| status_code := 200;
            content :=
              Some (JObject [("status", JString "success");
                             ("response", json_of_text final_response_text)]) |}
     | Raise e =>
         {| status_code := 500;
            content := Some (JObject [("detail", JString (str_exn e))]) |}
     end,
     session_created (uuid4 (uuid_drawn w)) w).
Proof.
  unfold serve_process_asset, process_asset, str_uuid4,
    session_service_create_session. unfold_action. simpl.
  by destruct (final_response _ _).
Qed.

Lemma process_all_snoc events event w :
  process_all uuid4 run_async (events ++ [event]) w
  = snd (serve_process_asset uuid4 run_async event
           (process_all uuid4 run_async events w)).
Proof. unfold process_all. by rewrite fold_left_app. Qed.

(** The sessions and the draws after a run of the worker route. *)
Lemma process_all_sessions events w :
  session_service (process_all uuid4 run_async events w)
  = session_service w
      ++ map (fun n => worker_session (uuid4 n))
           (seq (uuid_drawn w) (List.length events))
  /\ uuid_drawn (process_all uuid4 run_async events w)
     = uuid_drawn w + List.length events.
Proof.
  induction events as [|event events IH] using rev_ind.
  - simpl. split; [by rewrite app_nil_r|lia].
  - rewrite process_all_snoc, serve_process_asset_by_stream. simpl.
    destruct IH as [-> ->]. rewrite length_app, seq_app, map_app. simpl.
    split; [by rewrite <- app_assoc|lia].
Qed.

Lemma final_response_skip (held : option string) pre rest :
  Forall (fun e => is_final_response e = false) pre ->
  final_response held (yield_all pre rest) = final_response held rest.
Proof.
  induction 1 as [|e pre He _ IH]; [done|]. simpl. by rewrite He.
Qed.

Lemma final_response_no_parts (held : option string) final rest :
  is_final_response final = true ->
  has_parts final = false ->
  final_response held (StreamYield final rest)
  = Return (if escalated final
            then Some ("Agent escalated: " +:+
                       or_default (error_message final) "No specific message.")
            else held).
Proof.
  intros Hf Hp. simpl. rewrite Hf. unfold has_parts, escalated in *.
  destruct (event_content final) as [[r [[|p ps]|]]|]; try done;
    by destruct (actions final) as [[[[]|]]|].
Qed.

(** C9. When the stream of the runner ends without a final-response
    event, and when its first final-response event has no content part and
    no escalation, the worker route answers 200 with status success and the
    sentence that no final response was produced; when that event has no
    content part and escalates, it answers 200 with status success and the
    escalation message. *)
Theorem process_asset_success_without_final_text :
  (forall event w pre,
     Forall (fun e => is_final_response e = false) pre ->
     run_async "gcs_trigger_user" (uuid4 (uuid_drawn w)) (user_message event)
     = yield_all pre StreamEnd ->
     fst (serve_process_asset uuid4 run_async event w)
     = {| status_code := 200;
          content :=
            Some (success_body "Agent did not produce a final response.") |})
  /\ (forall event w pre final rest,
        Forall (fun e => is_final_response e = false) pre ->
        run_async "gcs_trigger_user" (uuid4 (uuid_drawn w)) (user_message event)
        = yield_all pre (StreamYield final rest) ->
        is_final_response final = true ->
        has_parts final = false ->
        escalated final = false ->
        fst (serve_process_asset uuid4 run_async event w)
        = {| status_code := 200;
             content :=
               Some (success_body "Agent did not produce a final response.") |})
  /\ (forall event w pre final rest,
        Forall (fun e => is_final_response e = false) pre ->
        run_async "gcs_trigger_user" (uuid4 (uuid_drawn w)) (user_message event)
        = yield_all pre (StreamYield final rest) ->
        is_final_response final = true ->
        has_parts final = false ->
        escalated final = true ->
        fst (serve_process_asset uuid4 run_async event w)
        = {| status_code := 200;
             content :=
               Some (success_body
                       ("Agent escalated: " +:+
                        or_default (error_message final) "No specific message.")) |}).
Proof.
  split; [|split].
  - intros event w pre Hpre Hrun.
    by rewrite serve_process_asset_by_stream, Hrun, final_response_skip.
  - intros event w pre final rest Hpre Hrun Hf Hp He.
    by rewrite serve_process_asset_by_stream, Hrun, final_response_skip,
      final_response_no_parts, He.
  - intros event w pre final rest Hpre Hrun Hf Hp He.
    by rewrite serve_process_asset_by_stream, Hrun, final_response_skip,
      final_response_no_parts, He.
Qed.

End FrontDoor.

(** The body of the task for the event of bucket b1 and name video.mp4,
    byte by byte: the JSON text with its two members. *)
Example video_event_body :
  encode (model_dump_json video_event)
  = [Byte.x7b; Byte.x22; Byte.x62; Byte.x75; Byte.x63; Byte.x6b; Byte.x65;
     Byte.x74; Byte.x22; Byte.x3a; Byte.x22; Byte.x62; Byte.x31; Byte.x22;
     Byte.x2c; Byte.x22; Byte.x6e; Byte.x61; Byte.x6d; Byte.x65; Byte.x22;
     Byte.x3a; Byte.x22; Byte.x76; Byte.x69; Byte.x64; Byte.x65; Byte.x6f;
     Byte.x2e; Byte.x6d; Byte.x70; Byte.x34; Byte.x22; Byte.x7d].
Proof. vm_compute. reflexivity. Qed.

Lemma gcs_trigger_status_witness :
  serve_gcs_trigger demo_settings video_event idle_world
  = ({| status_code := 204; content := None |},
     enqueued demo_queue (build_task demo_settings (model_dump_json video_event))
       idle_world)
  /\ (exists detail_text,
        serve_gcs_trigger demo_settings video_event queue_down_world
        = ({| status_code := 500;
              content := Some (JObject [("detail", JString detail_text)]) |},
           queue_down_world)
        /\ occurs_in "503 queue down" detail_text).
Proof.
  split.
  - exact (proj1 (gcs_trigger_status demo_settings video_event idle_world) eq_refl).
  - exact (proj2 (gcs_trigger_status demo_settings video_event queue_down_world)
             (OtherException "ServiceUnavailable" "503 queue down") eq_refl).
Defined.

Lemma gcs_trigger_task_descriptor_witness :
  exists task,
    tasks (tasks_client (snd (gcs_trigger demo_settings video_event idle_world)))
    = tasks (tasks_client idle_world) ++ [(demo_queue, task)]
    /\ http_method (http_request task) = POST
    /\ url (http_request task) = "https://worker.example" +:+ "/process-asset"
    /\ audience (oidc_token (http_request task)) = url (http_request task)
    /\ headers (http_request task) !! "Content-type" = Some "application/json"
    /\ body (http_request task) = encode (model_dump_json video_event)
    /\ body_event (body (http_request task)) = Some video_event
    /\ dispatch_deadline task = "1800s"
    /\ duration_seconds (dispatch_deadline task) = Some 1800%N.
Proof.
  exact (gcs_trigger_task_descriptor demo_settings video_event idle_world
           "https://worker.example" eq_refl eq_refl).
Defined.

Lemma process_asset_success_without_final_text_witness :
  fst (serve_process_asset counting_uuid4 silent_runner video_event idle_world)
  = {| status_code := 200;
       content := Some (success_body "Agent did not produce a final response.") |}
  /\ fst (serve_process_asset counting_uuid4 empty_final_runner video_event
            idle_world)
     = {| status_code := 200;
          content := Some (success_body "Agent did not produce a final response.") |}
  /\ fst (serve_process_asset counting_uuid4 escalating_runner video_event
            idle_world)
     = {| status_code := 200;
          content :=
            Some (success_body
                    ("Agent escalated: " +:+
                     or_default (error_message escalation_event)
                       "No specific message.")) |}.
Proof.
  split; [|split].
  - apply (proj1 (process_asset_success_without_final_text counting_uuid4
                    silent_runner) video_event idle_world [plain_event]);
      [by repeat constructor|reflexivity].
  - apply (proj1 (proj2 (process_asset_success_without_final_text counting_uuid4
                           empty_final_runner))
             video_event idle_world [plain_event] empty_final_event StreamEnd);
      [by repeat constructor|reflexivity..].
  - apply (proj2 (proj2 (process_asset_success_without_final_text counting_uuid4
                           escalating_runner))
             video_event idle_world [plain_event] escalation_event StreamEnd);
      [by repeat constructor|reflexivity..].
Defined.

(** ** Further properties of the tools and the handlers *)

(** *** Cutting a string at a separator *)

Section CutFacts.

Implicit Types (c a : ascii) (s h t x y : string).

Lemma cut_first_spec c s h t :
  cut_first c s = Some (h, t) -> s = h +:+ String c t /\ contains c h = false.
Proof.
  revert h. induction s as [|a s IH]; intros h; simpl; [done|].
  destruct (Ascii.eqb a c) eqn:E.
  - intros [= <- <-]. by apply Ascii.eqb_eq in E as ->.
  - destruct (cut_first c s) as [[h' t']|]; [|done]. intros [= <- <-].
    destruct (IH h' eq_refl) as [-> Hc]. split; [done|]. simpl. by rewrite E.
Qed.

Lemma cut_last_None c s : cut_last c s = None -> contains c s = false.
Proof.
  induction s as [|a s IH]; simpl; [done|].
  destruct (cut_last c s) as [[h t]|]; [done|].
  destruct (Ascii.eqb a c); [done|]. intros _. by apply IH.
Qed.

Lemma cut_last_spec c s h t :
  cut_last c s = Some (h, t) -> s = h +:+ String c t /\ contains c t = false.
Proof.
  revert h. induction s as [|a s IH]; intros h; simpl; [done|].
  destruct (cut_last c s) as [[h' t']|] eqn:E.
  - intros [= <- <-]. destruct (IH h' eq_refl) as [-> Hc]. done.
  - destruct (Ascii.eqb a c) eqn:Ea; [|done]. intros [= <- <-].
    apply Ascii.eqb_eq in Ea as ->. split; [done|]. by apply cut_last_None.
Qed.

(** The last segment has no separator and is the tail of the string. *)
Lemma last_segment_no_separator c s : contains c (last_segment c s) = false.
Proof.
  unfold last_segment. destruct (cut_last c s) as [[h t]|] eqn:E.
  - by destruct (cut_last_spec _ _ _ _ E).
  - by apply cut_last_None.
Qed.

Lemma last_segment_tail c s : exists before, s = before +:+ last_segment c s.
Proof.
  unfold last_segment. destruct (cut_last c s) as [[h t]|] eqn:E.
  - destruct (cut_last_spec _ _ _ _ E) as [-> _].
    exists (h +:+ String c ""). by rewrite string_app_assoc.
  - by exists "".
Qed.

Lemma last_segment_trailing c x : last_segment c (x +:+ String c "") = "".
Proof.
  rewrite last_segment_app by apply contains_String.
  by rewrite last_segment_String.
Qed.

Lemma split1_two c s h t :
  split1 c s = [h; t] -> s = h +:+ String c t /\ contains c h = false.
Proof.
  unfold split1. destruct (cut_first c s) as [[h' t']|] eqn:E; [|done].
  intros [= <- <-]. by apply cut_first_spec.
Qed.

End CutFacts.

(** *** Runs of the artifact store adapter *)

Section AdapterRuns.

Variable guess_type : string -> option string * option string.
Variable download_as_bytes : string -> string -> outcome exn (list Byte.byte).

Local Abbreviation add_artifact :=
  (add_artifact_from_gcs guess_type download_as_bytes).
Local Abbreviation saved_part := (saved_part_of guess_type).

Implicit Types (uri : string) (ctx : ToolContext).

Lemma artifacts_of_in_memory ctx artifacts :
  artifact_service ctx = Some (InMemory artifacts) -> artifacts_of ctx = artifacts.
Proof. intros H. unfold artifacts_of. by rewrite H. Qed.

(** A run that returns, in full. *)
Lemma add_artifact_return uri ctx ctx' :
  add_artifact uri ctx = (Return tt, ctx') ->
  exists bucket_name blob_name file_bytes,
    split1 slash (slice_from 5 uri) = [bucket_name; blob_name]
    /\ download_as_bytes bucket_name blob_name = Return file_bytes
    /\ artifact_service ctx = Some (InMemory (artifacts_of ctx))
    /\ ctx' = with_artifacts ctx
               (<[artifact_path_of ctx (last_segment slash uri) :=
                    default [] (artifacts_of ctx
                                  !! artifact_path_of ctx (last_segment slash uri))
                      ++ [saved_part file_bytes (last_segment slash uri)]]>
                  (artifacts_of ctx)).
Proof.
  intros H.
  destruct (add_artifact_cases guess_type download_as_bytes uri ctx)
    as [[e He]|(b & n & Hs & Hf)].
  - rewrite He in H. discriminate H.
  - rewrite Hf in H.
    destruct (fetch_save_return _ _ _ _ _ _ _ H) as (m & bs & Hm & Hd & ->).
    exists b, n, bs. by rewrite (artifacts_of_in_memory _ _ Hm).
Qed.

(** X1. A run of the adapter that returns has cut the text after the
    first five characters of the URI at its first slash: that text is the
    bucket name, a slash and the object name, the bucket name has no slash,
    and the object read is the one of these two names. *)
Theorem add_artifact_from_gcs_reads_first_cut uri ctx ctx' :
  add_artifact uri ctx = (Return tt, ctx') ->
  exists bucket_name blob_name file_bytes,
    slice_from 5 uri = bucket_name +:+ "/" +:+ blob_name
    /\ contains slash bucket_name = false
    /\ download_as_bytes bucket_name blob_name = Return file_bytes.
Proof.
  intros H. destruct (add_artifact_return _ _ _ H) as (b & n & bs & Hs & Hd & _).
  destruct (split1_two _ _ _ _ Hs) as [Heq Hb]. by exists b, n, bs.
Qed.

(** X3. A URI that ends in a slash is saved under the empty filename. *)
Theorem add_artifact_from_gcs_trailing_slash prefix ctx ctx' :
  add_artifact (prefix +:+ "/") ctx = (Return tt, ctx') ->
  exists versions part,
    artifacts_of ctx'
      !! (app_name ctx, user_id ctx, SessionScope (session_id ctx), "")
    = Some (versions ++ [part]).
Proof.
  intros H.
  destruct (add_artifact_return _ _ _ H) as (b & n & bs & _ & _ & _ & ->).
  change (prefix +:+ "/") with (prefix +:+ String slash "").
  rewrite last_segment_trailing. eexists _, _.
  unfold artifacts_of; simpl. apply lookup_insert_eq.
Qed.

(** X4. The adapter only ever appends: whatever the URI and whatever the
    outcome, the versions an artifact had before the call are still there
    after it, in the same order, followed by at most one new version. *)
Theorem add_artifact_from_gcs_append_only uri ctx path earlier :
  artifacts_of ctx !! path = Some earlier ->
  exists added,
    artifacts_of (snd (add_artifact uri ctx)) !! path = Some (earlier ++ added)
    /\ List.length added <= 1.
Proof.
  intros Hold.
  destruct (add_artifact uri ctx) as [[[]|e] ctx'] eqn:E; simpl.
  - destruct (add_artifact_return _ _ _ E) as (b & n & bs & _ & _ & _ & ->).
    unfold artifacts_of at 1; simpl. rewrite lookup_insert. case_decide as Hp.
    + subst path. rewrite Hold. simpl. eexists [_]. split; [done|simpl; lia].
    + exists []. split; [by rewrite app_nil_r|simpl; lia].
  - apply (add_artifact_raise guess_type download_as_bytes) in E as ->.
    exists []. split; [by rewrite app_nil_r|simpl; lia].
Qed.

(** X6. What goes wrong outside reaches the caller as it is, and nothing
    is saved: when the object cannot be read the adapter raises the
    exception of the storage client; when the object is read but the
    context has no artifact service it raises the [ValueError] of the
    context, after the object has been read. *)
Theorem add_artifact_from_gcs_outside_errors uri ctx bucket_name blob_name :
  slice_from 5 uri = bucket_name +:+ "/" +:+ blob_name ->
  contains slash bucket_name = false ->
  (forall e,
     download_as_bytes bucket_name blob_name = Raise e ->
     add_artifact uri ctx = (Raise e, ctx))
  /\ (forall file_bytes,
        download_as_bytes bucket_name blob_name = Return file_bytes ->
        artifact_service ctx = None ->
        add_artifact uri ctx
        = (Raise (ValueError "Artifact service is not initialized."), ctx)).
Proof.
  intros Heq Hb.
  assert (Hs : split1 slash (slice_from 5 uri) = [bucket_name; blob_name])
    by (rewrite Heq; by apply split1_app).
  rewrite (add_artifact_split guess_type download_as_bytes uri _ _ ctx Hs).
  unfold fetch_and_save, save_artifact. unfold_action.
  split.
  - by intros e ->.
  - by intros bs -> ->.
Qed.

End AdapterRuns.

(** *** The adapter and the listing tool together *)

Section ListingRuns.

Variable guess_type : string -> option string * option string.
Variable download_as_bytes : string -> string -> outcome exn (list Byte.byte).

Local Abbreviation add_artifact :=
  (add_artifact_from_gcs guess_type download_as_bytes).

Implicit Types (uri : string) (ctx : ToolContext)
  (artifacts : gmap artifact_path (list Part)).

(** The names the in-memory service lists: those with versions in the
    session or in the user namespace. *)
Lemma elem_of_list_artifact_keys filename app user session artifacts :
  filename ∈ list_artifact_keys app user session artifacts
  <-> exists ns versions,
        artifacts !! (app, user, ns, filename) = Some versions
        /\ (ns = SessionScope session \/ ns = UserScope).
Proof.
  unfold list_artifact_keys. rewrite merge_sort_Permutation, list_elem_of_omap.
  split.
  - intros ([[[[a u] ns] f] versions] & Hin & Hf).
    apply elem_of_map_to_list in Hin.
    case_bool_decide as Hd; [|done]. destruct Hd as (-> & -> & Hns).
    simplify_eq. eauto.
  - intros (ns & versions & Hl & Hns). exists (app, user, ns, filename, versions).
    split; [by apply elem_of_map_to_list|]. by rewrite bool_decide_eq_true_2.
Qed.

Lemma context_list_artifacts_in_memory ctx artifacts :
  artifact_service ctx = Some (InMemory artifacts) ->
  context_list_artifacts ctx
  = (Return (list_artifact_keys (app_name ctx) (user_id ctx) (session_id ctx)
               artifacts), ctx).
Proof. intros H. unfold context_list_artifacts. by rewrite H. Qed.

Lemma artifact_path_of_namespace ctx filename :
  exists ns,
    artifact_path_of ctx filename = (app_name ctx, user_id ctx, ns, filename)
    /\ (ns = SessionScope (session_id ctx) \/ ns = UserScope).
Proof.
  unfold artifact_path_of. destruct (file_has_user_namespace filename); eauto.
Qed.

(** X7. What the adapter has saved, the listing tool shows: after a run
    of the adapter that returns, the listing tool, called in the same
    context, returns the heading and the lines of a list of files that
    holds the filename of the run. *)
Theorem saved_artifact_is_listed uri ctx ctx' :
  add_artifact uri ctx = (Return tt, ctx') ->
  exists files,
    last_segment slash uri ∈ files
    /\ list_artifacts ctx'
       = (Return ("Here are your available Python artifacts:" +:+ newline
                    +:+ join newline (map hyphen_line files)), ctx').
Proof.
  intros H.
  destruct (add_artifact_return _ _ _ _ _ H) as (b & n & bs & _ & _ & _ & ->).
  set (f := last_segment slash uri).
  set (artifacts' := <[artifact_path_of ctx f := _]> (artifacts_of ctx)).
  exists (list_artifact_keys (app_name ctx) (user_id ctx) (session_id ctx) artifacts').
  assert (Hin : f ∈ list_artifact_keys (app_name ctx) (user_id ctx)
                      (session_id ctx) artifacts').
  { apply elem_of_list_artifact_keys.
    destruct (artifact_path_of_namespace ctx f) as (ns & Hp & Hns).
    exists ns, (default [] (artifacts_of ctx !! artifact_path_of ctx f)
                  ++ [saved_part_of guess_type bs f]).
    split; [|done]. rewrite <- Hp. apply lookup_insert_eq. }
  split; [done|]. rewrite list_artifacts_by_outcome.
  rewrite (context_list_artifacts_in_memory (with_artifacts ctx artifacts')
             artifacts' eq_refl). simpl.
  destruct (list_artifact_keys _ _ _ artifacts') as [|x l]; [|done].
  by apply elem_of_nil in Hin.
Qed.

(** X8. A file whose name starts with user: leaves the session: after a
    run of the adapter on a URI whose last segment starts with user:, the
    file is listed in every session of the same application and user. *)
Theorem user_prefixed_artifact_is_shared uri ctx ctx' other_session :
  add_artifact uri ctx = (Return tt, ctx') ->
  startswith "user:" (last_segment slash uri) = true ->
  exists files,
    fst (context_list_artifacts (in_session other_session ctx')) = Return files
    /\ last_segment slash uri ∈ files.
Proof.
  intros H Hu.
  destruct (add_artifact_return _ _ _ _ _ H) as (b & n & bs & _ & _ & _ & ->).
  eexists. split; [reflexivity|]. apply elem_of_list_artifact_keys.
  exists UserScope. eexists. split; [|by right]. simpl.
  unfold artifact_path_of, file_has_user_namespace. rewrite Hu.
  apply lookup_insert_eq.
Qed.

(** X10. The sentence of the listing tool tells which case it was: it is
    the no-artifacts sentence exactly when the service listed nothing, and
    one of the two error sentences exactly when the service raised a
    [ValueError], or another exception; a file name cannot make a listing
    read as one of these. *)
Theorem list_artifacts_sentence_tells_outcome ctx sentence :
  fst (list_artifacts ctx) = Return sentence ->
  (sentence = "You have no saved artifacts."
   <-> fst (context_list_artifacts ctx) = Return [])
  /\ (sentence = "Error: Could not list Python artifacts."
      <-> exists msg, fst (context_list_artifacts ctx) = Raise (ValueError msg))
  /\ (sentence = "Error: An unexpected error occurred while listing Python artifacts."
      <-> exists cls msg,
            fst (context_list_artifacts ctx) = Raise (OtherException cls msg)).
Proof.
  rewrite list_artifacts_by_outcome. simpl. intros [= <-].
  destruct (fst (context_list_artifacts ctx)) as [[|x l]|[msg|cls msg]];
    (split; [|split]); split;
    try (intros H; discriminate H);
    try (intros (? & H); discriminate H);
    try (intros (? & ? & H); discriminate H);
    eauto.
Qed.

End ListingRuns.

(** *** Runs of the two routes *)

Section RouteRuns.

Variable settings : Settings.
Variable uuid4 : nat -> string.
Variable run_async : string -> string -> Content -> event_stream.

Implicit Types (event : GcsEvent) (w : World) (events : list GcsEvent).

Lemma serve_gcs_trigger_accepted event w :
  accepts_all w ->
  serve_gcs_trigger settings event w
  = ({| status_code := 204; content := None |},
     enqueued (submitted settings event).1 (submitted settings event).2 w).
Proof.
  intros Hacc. unfold serve_gcs_trigger. by rewrite gcs_trigger_by_answer, Hacc.
Qed.

Lemma accepts_all_enqueued parent task w :
  accepts_all w -> accepts_all (enqueued parent task w).
Proof. intros H p t. apply H. Qed.

(** X11. A missing service URL does not stop the enqueue route: it
    answers 204 and enqueues a task whose target and audience are the text
    None followed by /process-asset. *)
Theorem gcs_trigger_without_service_url event w :
  SERVICE_URL settings = None ->
  accepts_all w ->
  exists parent task,
    serve_gcs_trigger settings event w
    = ({| status_code := 204; content := None |}, enqueued parent task w)
    /\ url (http_request task) = "None/process-asset"
    /\ audience (oidc_token (http_request task)) = "None/process-asset".
Proof.
  intros Hurl Hacc. eexists _, _. split; [by apply serve_gcs_trigger_accepted|].
  simpl. by rewrite Hurl.
Qed.

(** X12. The enqueue route keeps no memory of what it has enqueued: a run
    of requests against a queue that accepts leaves one task per request,
    in the order of the requests, repeated events included. *)
Theorem enqueue_all_one_task_per_request events w :
  accepts_all w ->
  tasks (tasks_client (enqueue_all settings events w))
  = tasks (tasks_client w) ++ map (submitted settings) events.
Proof.
  unfold enqueue_all. revert w.
  induction events as [|event events IH]; intros w Hacc; simpl.
  - by rewrite app_nil_r.
  - rewrite serve_gcs_trigger_accepted by done. simpl.
    rewrite IH by by apply accepts_all_enqueued. simpl.
    by rewrite <- app_assoc.
Qed.

(** X13. Each route keeps to its own part of the state: a run of the
    enqueue route creates no session and draws no identifier, and a run of
    the worker route leaves the queue client as it was. *)
Theorem routes_keep_to_their_state events w :
  (session_service (enqueue_all settings events w) = session_service w
   /\ uuid_drawn (enqueue_all settings events w) = uuid_drawn w)
  /\ tasks_client (process_all uuid4 run_async events w) = tasks_client w.
Proof.
  split.
  - unfold enqueue_all. revert w.
    induction events as [|event events IH]; intros w; simpl; [done|].
    destruct (IH (snd (serve_gcs_trigger settings event w))) as [-> ->].
    unfold serve_gcs_trigger. rewrite gcs_trigger_by_answer.
    by destruct (refuses _ _ _).
  - unfold process_all. revert w.
    induction events as [|event events IH]; intros w; simpl; [done|].
    rewrite IH. by rewrite serve_process_asset_by_stream.
Qed.

(** X14. Two events never share a task body: events that differ in
    bucket or name give tasks with different bodies, whatever characters
    the two names hold and whatever the settings. *)
Theorem task_body_determines_event settings' event event' :
  event <> event' ->
  body (http_request (build_task settings (model_dump_json event)))
  <> body (http_request (build_task settings' (model_dump_json event'))).
Proof.
  change (event <> event'
          -> encode (model_dump_json event) <> encode (model_dump_json event')).
  intros Hne H. apply Hne. apply (f_equal body_event) in H.
  rewrite !body_event_encode in H. by simplify_eq.
Qed.

(** X15. When the runner raises before any final response, the worker
    route answers 500 with the text of the exception as detail, and the
    session it created stays. *)
Theorem process_asset_runner_raises event w pre e :
  Forall (fun ev => is_final_response ev = false) pre ->
  run_async "gcs_trigger_user" (uuid4 (uuid_drawn w)) (user_message event)
  = yield_all pre (StreamRaise e) ->
  serve_process_asset uuid4 run_async event w
  = ({| status_code := 500;
        content := Some (JObject [("detail", JString (str_exn e))]) |},
     session_created (uuid4 (uuid_drawn w)) w).
Proof.
  intros Hpre Hrun.
  by rewrite serve_process_asset_by_stream, Hrun, final_response_skip.
Qed.

(** X16. The worker stops at the first final response: what the runner
    would do after it, a raise included, has no effect, and the answer
    is 200. *)
Theorem process_asset_stops_at_first_final event w run_async' pre final rest rest' :
  Forall (fun ev => is_final_response ev = false) pre ->
  is_final_response final = true ->
  run_async "gcs_trigger_user" (uuid4 (uuid_drawn w)) (user_message event)
  = yield_all pre (StreamYield final rest) ->
  run_async' "gcs_trigger_user" (uuid4 (uuid_drawn w)) (user_message event)
  = yield_all pre (StreamYield final rest') ->
  serve_process_asset uuid4 run_async event w
  = serve_process_asset uuid4 run_async' event w
  /\ status_code (fst (serve_process_asset uuid4 run_async event w)) = 200.
Proof.
  intros Hpre Hf Hrun Hrun'.
  rewrite !serve_process_asset_by_stream, Hrun, Hrun', !final_response_skip
    by done.
  simpl. rewrite Hf.
  by destruct (event_content final) as [[r [[|p ps]|]]|],
       (actions final) as [[[[]|]]|].
Qed.

(** X17. When the first final response has content parts, the response is
    the text of the first part alone, JSON null when that part has no
    text; the other parts and an escalation on the same event are not
    looked at. *)
Theorem process_asset_first_part_only event w pre final rest r part others :
  Forall (fun ev => is_final_response ev = false) pre ->
  run_async "gcs_trigger_user" (uuid4 (uuid_drawn w)) (user_message event)
  = yield_all pre (StreamYield final rest) ->
  is_final_response final = true ->
  event_content final = Some {| role := r; parts := Some (part :: others) |} ->
  is_200_success (fst (serve_process_asset uuid4 run_async event w))
    (json_of_text (text part)).
Proof.
  intros Hpre Hrun Hf Hc.
  rewrite serve_process_asset_by_stream, Hrun, final_response_skip by done.
  simpl. by rewrite Hf, Hc.
Qed.

(** X18. An escalation without content parts and with no error message,
    or with the empty one, is reported with the words No specific
    message. *)
Theorem process_asset_escalation_default event w pre final rest :
  Forall (fun ev => is_final_response ev = false) pre ->
  run_async "gcs_trigger_user" (uuid4 (uuid_drawn w)) (user_message event)
  = yield_all pre (StreamYield final rest) ->
  is_final_response final = true ->
  has_parts final = false ->
  escalated final = true ->
  error_message final = None \/ error_message final = Some "" ->
  is_200_success (fst (serve_process_asset uuid4 run_async event w))
    (JString "Agent escalated: No specific message.").
Proof.
  intros Hpre Hrun Hf Hp He Hm.
  rewrite serve_process_asset_by_stream, Hrun, final_response_skip,
    final_response_no_parts, He by done.
  by destruct Hm as [-> | ->].
Qed.

(** X19. The statuses the routes answer with: 204, 422 or 500 for the
    enqueue route and 200, 422 or 500 for the worker route, whatever the
    body, the queue client and the runner do. *)
Theorem route_statuses request_body w :
  status_code (fst (post_gcs_trigger settings request_body w)) ∈ [204; 422; 500]
  /\ status_code (fst (post_process_asset uuid4 run_async request_body w))
     ∈ [200; 422; 500].
Proof.
  unfold post_gcs_trigger, post_process_asset.
  destruct (GcsEvent_validate request_body) as [errors|event]; simpl.
  - split; set_solver.
  - unfold serve_gcs_trigger.
    rewrite gcs_trigger_by_answer, serve_process_asset_by_stream.
    destruct (refuses _ _ _), (final_response _ _); simpl; split; set_solver.
Qed.

(** X20. From the enqueue route to the runner: the text the worker sends
    to the runner for an event is the text the task body of that event
    decodes to; with a runner that answers with the message it was given,
    that text is the response of the worker route. *)
Theorem task_body_reaches_runner event w w' :
  accepts_all w ->
  exists parent task sent,
    tasks (tasks_client (snd (serve_gcs_trigger settings event w)))
    = tasks (tasks_client w) ++ [(parent, task)]
    /\ decode (body (http_request task)) = Some sent
    /\ is_200_success (fst (serve_process_asset uuid4 echo_runner event w'))
         (JString sent).
Proof.
  intros Hacc. rewrite serve_gcs_trigger_accepted by done.
  exists (submitted settings event).1, (submitted settings event).2,
    (model_dump_json event).
  split; [reflexivity|]. split; [exact (decode_encode (model_dump_json event))|].
  by rewrite serve_process_asset_by_stream.
Qed.

End RouteRuns.

(** *** What the adapter takes from the MIME table *)

Section MimeTypes.

Variable download_as_bytes : string -> string -> outcome exn (list Byte.byte).

Implicit Types (guess_type : string -> option string * option string)
  (uri : string) (ctx : ToolContext).

(** X22. Only application/json is replaced: a file of any other inferred
    type is saved with that type, and a file for which no type is inferred
    is saved with none. *)
Theorem add_artifact_from_gcs_keeps_other_types guess_type uri ctx ctx' :
  add_artifact_from_gcs guess_type download_as_bytes uri ctx = (Return tt, ctx') ->
  fst (guess_type (last_segment slash uri)) <> Some "application/json" ->
  exists versions,
    artifacts_of ctx' !! artifact_path_of ctx (last_segment slash uri)
    = Some versions
    /\ part_mime_type <$> last versions
       = Some (fst (guess_type (last_segment slash uri))).
Proof.
  intros H Hne.
  destruct (add_artifact_return _ _ _ _ _ H) as (b & n & bs & _ & _ & _ & ->).
  eexists. split.
  - unfold artifacts_of; simpl. apply lookup_insert_eq.
  - rewrite last_snoc. unfold saved_part_of, part_mime_type, stored_mime_type.
    simpl. by rewrite bool_decide_eq_false_2.
Qed.

(** X23. The encoding the MIME table reports plays no part: two tables
    that infer the same types give the same run of the adapter, so that a
    compressed JSON file is saved as text/plain like a plain one. *)
Theorem add_artifact_from_gcs_ignores_encoding guess_type guess_type' uri ctx :
  (forall filename, fst (guess_type filename) = fst (guess_type' filename)) ->
  add_artifact_from_gcs guess_type download_as_bytes uri ctx
  = add_artifact_from_gcs guess_type' download_as_bytes uri ctx.
Proof.
  intros Hsame.
  destruct (contains slash (slice_from 5 uri)) eqn:E.
  - destruct (cut_first_Some _ _ E) as (b & n & Hc).
    assert (Hs : split1 slash (slice_from 5 uri) = [b; n])
      by (unfold split1; by rewrite Hc).
    rewrite !(add_artifact_split _ download_as_bytes uri b n ctx Hs).
    unfold fetch_and_save, saved_part_of, stored_mime_type.
    by rewrite Hsame.
  - by rewrite !add_artifact_no_slash.
Qed.

End MimeTypes.

(** *** The further properties on the concrete setting *)

Lemma add_artifact_from_gcs_reads_first_cut_witness :
  exists bucket_name blob_name file_bytes,
    slice_from 5 "gs://b/dir/name.pdf" = bucket_name +:+ "/" +:+ blob_name
    /\ contains slash bucket_name = false
    /\ bucket_b bucket_name blob_name = Return file_bytes.
Proof.
  apply (add_artifact_from_gcs_reads_first_cut mime_table bucket_b
           "gs://b/dir/name.pdf" fresh_context
           (after_saving "gs://b/dir/name.pdf")).
  vm_compute. reflexivity.
Defined.

Lemma add_artifact_from_gcs_trailing_slash_witness :
  exists versions part,
    artifacts_of (after_saving "gs://b/dir/")
      !! (app_name fresh_context, user_id fresh_context,
          SessionScope (session_id fresh_context), "")
    = Some (versions ++ [part]).
Proof.
  apply (add_artifact_from_gcs_trailing_slash mime_table bucket_b "gs://b/dir"
           fresh_context (after_saving "gs://b/dir/")).
  vm_compute. reflexivity.
Defined.

Lemma add_artifact_from_gcs_append_only_witness :
  exists added,
    artifacts_of
      (snd (add_artifact_from_gcs mime_table bucket_b "gs://b/dir/name.pdf"
              (after_saving "gs://b/dir/name.pdf")))
      !! session_path "name.pdf"
    = Some ([saved (Some "application/pdf")] ++ added)
    /\ List.length added <= 1.
Proof.
  apply (add_artifact_from_gcs_append_only mime_table bucket_b
           "gs://b/dir/name.pdf" (after_saving "gs://b/dir/name.pdf")
           (session_path "name.pdf") [saved (Some "application/pdf")]).
  vm_compute. reflexivity.
Defined.

Lemma add_artifact_from_gcs_outside_errors_witness :
  add_artifact_from_gcs mime_table bucket_b "gs://lost/dir/name.pdf" fresh_context
  = (Raise (OtherException "NotFound" "No such object: dir/name.pdf"),
     fresh_context)
  /\ add_artifact_from_gcs mime_table bucket_b "gs://b/dir/name.pdf"
       unconfigured_context
     = (Raise (ValueError "Artifact service is not initialized."),
        unconfigured_context).
Proof.
  split.
  - apply (proj1 (add_artifact_from_gcs_outside_errors mime_table bucket_b
                    "gs://lost/dir/name.pdf" fresh_context "lost" "dir/name.pdf"
                    eq_refl eq_refl)).
    reflexivity.
  - apply (proj2 (add_artifact_from_gcs_outside_errors mime_table bucket_b
                    "gs://b/dir/name.pdf" unconfigured_context "b" "dir/name.pdf"
                    eq_refl eq_refl) some_bytes); reflexivity.
Defined.

Lemma saved_artifact_is_listed_witness :
  exists files,
    last_segment slash "gs://b/dir/name.pdf" ∈ files
    /\ list_artifacts (after_saving "gs://b/dir/name.pdf")
       = (Return ("Here are your available Python artifacts:" +:+ newline
                    +:+ join newline (map hyphen_line files)),
          after_saving "gs://b/dir/name.pdf").
Proof.
  apply (saved_artifact_is_listed mime_table bucket_b "gs://b/dir/name.pdf"
           fresh_context).
  vm_compute. reflexivity.
Defined.

Lemma user_prefixed_artifact_is_shared_witness :
  exists files,
    fst (context_list_artifacts
           (in_session "another" (after_saving "gs://b/user:logo.png")))
    = Return files
    /\ last_segment slash "gs://b/user:logo.png" ∈ files.
Proof.
  apply (user_prefixed_artifact_is_shared mime_table bucket_b
           "gs://b/user:logo.png" fresh_context).
  - vm_compute. reflexivity.
  - reflexivity.
Defined.

Lemma list_artifacts_sentence_tells_outcome_witness :
  ("You have no saved artifacts." = "You have no saved artifacts."
   <-> fst (context_list_artifacts fresh_context) = Return [])
  /\ ("You have no saved artifacts." = "Error: Could not list Python artifacts."
      <-> exists msg,
            fst (context_list_artifacts fresh_context) = Raise (ValueError msg))
  /\ ("You have no saved artifacts."
      = "Error: An unexpected error occurred while listing Python artifacts."
      <-> exists cls msg,
            fst (context_list_artifacts fresh_context)
            = Raise (OtherException cls msg)).
Proof.
  apply (list_artifacts_sentence_tells_outcome fresh_context).
  vm_compute. reflexivity.
Defined.

Lemma accepts_all_idle_world : accepts_all idle_world.
Proof. intros parent task. reflexivity. Defined.

Lemma gcs_trigger_without_service_url_witness :
  exists parent task,
    serve_gcs_trigger no_settings video_event idle_world
    = ({| status_code := 204; content := None |}, enqueued parent task idle_world)
    /\ url (http_request task) = "None/process-asset"
    /\ audience (oidc_token (http_request task)) = "None/process-asset".
Proof.
  exact (gcs_trigger_without_service_url no_settings video_event idle_world
           eq_refl accepts_all_idle_world).
Defined.

Lemma enqueue_all_one_task_per_request_witness :
  tasks (tasks_client (enqueue_all demo_settings [video_event; video_event]
                         idle_world))
  = tasks (tasks_client idle_world)
      ++ map (submitted demo_settings) [video_event; video_event].
Proof.
  exact (enqueue_all_one_task_per_request demo_settings
           [video_event; video_event] idle_world accepts_all_idle_world).
Defined.

Lemma task_body_determines_event_witness :
  body (http_request
          (build_task demo_settings (model_dump_json video_event)))
  <> body (http_request
             (build_task no_settings
                (model_dump_json {| bucket := "b1"; name := "video.mp3" |}))).
Proof.
  apply (task_body_determines_event demo_settings no_settings). discriminate.
Defined.

Lemma process_asset_runner_raises_witness :
  serve_process_asset counting_uuid4 failing_runner video_event idle_world
  = ({| status_code := 500;
        content := Some (JObject [("detail", JString (str_exn quota_error))]) |},
     session_created (counting_uuid4 (uuid_drawn idle_world)) idle_world).
Proof.
  apply (process_asset_runner_raises counting_uuid4 failing_runner video_event
           idle_world [plain_event] quota_error);
    [by repeat constructor|reflexivity].
Defined.

Lemma process_asset_stops_at_first_final_witness :
  serve_process_asset counting_uuid4 empty_final_runner video_event idle_world
  = serve_process_asset counting_uuid4 late_failing_runner video_event idle_world
  /\ status_code
       (fst (serve_process_asset counting_uuid4 empty_final_runner video_event
               idle_world)) = 200.
Proof.
  apply (process_asset_stops_at_first_final counting_uuid4 empty_final_runner
           video_event idle_world late_failing_runner [plain_event]
           empty_final_event StreamEnd (StreamRaise quota_error));
    [by repeat constructor|reflexivity..].
Defined.

Lemma process_asset_first_part_only_witness :
  is_200_success
    (fst (serve_process_asset counting_uuid4 textless_runner video_event
            idle_world))
    (json_of_text None).
Proof.
  apply (process_asset_first_part_only counting_uuid4 textless_runner
           video_event idle_world [plain_event] textless_final_event StreamEnd
           (Some "model") {| text := None; inline_data := None |}
           [{| text := Some "second part"; inline_data := None |}]);
    [by repeat constructor|reflexivity..].
Defined.

Lemma process_asset_escalation_default_witness :
  is_200_success
    (fst (serve_process_asset counting_uuid4 wordless_runner video_event
            idle_world))
    (JString "Agent escalated: No specific message.").
Proof.
  apply (process_asset_escalation_default counting_uuid4 wordless_runner
           video_event idle_world [plain_event] wordless_escalation_event
           StreamEnd);
    [by repeat constructor|reflexivity..|right; reflexivity].
Defined.

Lemma task_body_reaches_runner_witness :
  exists parent task sent,
    tasks (tasks_client (snd (serve_gcs_trigger demo_settings video_event
                                idle_world)))
    = tasks (tasks_client idle_world) ++ [(parent, task)]
    /\ decode (body (http_request task)) = Some sent
    /\ is_200_success
         (fst (serve_process_asset counting_uuid4 echo_runner video_event
                 idle_world))
         (JString sent).
Proof.
  exact (task_body_reaches_runner demo_settings counting_uuid4 video_event
           idle_world idle_world accepts_all_idle_world).
Defined.

Lemma add_artifact_from_gcs_keeps_other_types_witness :
  exists versions,
    artifacts_of (after_saving "gs://b/dir/notes")
      !! artifact_path_of fresh_context (last_segment slash "gs://b/dir/notes")
    = Some versions
    /\ part_mime_type <$> last versions
       = Some (fst (mime_table (last_segment slash "gs://b/dir/notes"))).
Proof.
  apply (add_artifact_from_gcs_keeps_other_types bucket_b mime_table
           "gs://b/dir/notes" fresh_context (after_saving "gs://b/dir/notes")).
  - vm_compute. reflexivity.
  - discriminate.
Defined.

Lemma add_artifact_from_gcs_ignores_encoding_witness :
  add_artifact_from_gcs mime_table bucket_b "gs://b/data/scene.json" fresh_context
  = add_artifact_from_gcs mime_table_gzip bucket_b "gs://b/data/scene.json"
      fresh_context.
Proof.
  apply (add_artifact_from_gcs_ignores_encoding bucket_b mime_table
           mime_table_gzip).
  intros filename. reflexivity.
Defined.

(** *** The filename and repeated saves *)

Section AdapterRunsAgain.

Variable guess_type : string -> option string * option string.

Implicit Types (uri : string) (ctx : ToolContext)
  (download : string -> string -> outcome exn (list Byte.byte)).

Lemma contains_slice_from n c (s : string) :
  contains c (slice_from n s) = true -> contains c s = true.
Proof.
  revert s. induction n as [|n IH]; intros [|a s]; simpl; try done.
  intros H. destruct (Ascii.eqb a c); [done|]. by apply IH.
Qed.

(** X2. The filename of a save is the text after the last slash of the
    URI: a run of the adapter that returns has added one version at the
    path of a filename which has no slash and which, after a slash, ends
    the URI; nothing else in the store has changed. *)
Theorem add_artifact_from_gcs_filename download uri ctx ctx' :
  add_artifact_from_gcs guess_type download uri ctx = (Return tt, ctx') ->
  exists before filename file_bytes,
    uri = before +:+ "/" +:+ filename
    /\ contains slash filename = false
    /\ artifacts_of ctx'
       = <[artifact_path_of ctx filename :=
             default [] (artifacts_of ctx !! artifact_path_of ctx filename)
               ++ [saved_part_of guess_type file_bytes filename]]>
           (artifacts_of ctx).
Proof.
  intros H.
  destruct (add_artifact_return _ _ _ _ _ H) as (b & n & bs & Hs & _ & _ & ->).
  destruct (split1_two _ _ _ _ Hs) as [Heq _].
  assert (Hc : contains slash uri = true).
  { apply (contains_slice_from 5). rewrite Heq.
    apply contains_app_r, contains_String. }
  destruct (cut_last_Some _ _ Hc) as [[h t] Hcut].
  destruct (cut_last_spec _ _ _ _ Hcut) as [Huri Ht].
  assert (Hlast : last_segment slash uri = t)
    by (unfold last_segment; by rewrite Hcut).
  rewrite Hlast. by exists h, t, bs.
Qed.

(** X5. Saving the same URI twice keeps both versions: when both runs
    return, the artifact has the versions it had before, then the bytes
    read by the first run, then the bytes read by the second, whether or
    not the object has changed in between; nothing is replaced. *)
Theorem add_artifact_from_gcs_twice download download' uri ctx ctx1 ctx2 :
  add_artifact_from_gcs guess_type download uri ctx = (Return tt, ctx1) ->
  add_artifact_from_gcs guess_type download' uri ctx1 = (Return tt, ctx2) ->
  exists bucket_name blob_name first_bytes second_bytes,
    download bucket_name blob_name = Return first_bytes
    /\ download' bucket_name blob_name = Return second_bytes
    /\ artifacts_of ctx2 !! artifact_path_of ctx (last_segment slash uri)
       = Some (default [] (artifacts_of ctx
                             !! artifact_path_of ctx (last_segment slash uri))
                 ++ [saved_part_of guess_type first_bytes (last_segment slash uri);
                     saved_part_of guess_type second_bytes
                       (last_segment slash uri)]).
Proof.
  intros H1 H2.
  destruct (add_artifact_return _ _ _ _ _ H1) as (b & n & bs & Hs & Hd & _ & ->).
  destruct (add_artifact_return _ _ _ _ _ H2)
    as (b' & n' & bs' & Hs' & Hd' & _ & ->).
  rewrite Hs in Hs'. injection Hs' as <- <-.
  exists b, n, bs, bs'. split; [done|]. split; [done|].
  set (path := artifact_path_of ctx (last_segment slash uri)).
  unfold artifacts_of; simpl.
  change (artifact_path_of (with_artifacts ctx _) (last_segment slash uri))
    with path.
  rewrite !lookup_insert_eq. simpl. by rewrite <- app_assoc.
Qed.

End AdapterRunsAgain.

Lemma add_artifact_from_gcs_filename_witness :
  exists before filename file_bytes,
    "gs://b/dir/name.pdf" = before +:+ "/" +:+ filename
    /\ contains slash filename = false
    /\ artifacts_of (after_saving "gs://b/dir/name.pdf")
       = <[artifact_path_of fresh_context filename :=
             default [] (artifacts_of fresh_context
                           !! artifact_path_of fresh_context filename)
               ++ [saved_part_of mime_table file_bytes filename]]>
           (artifacts_of fresh_context).
Proof.
  apply (add_artifact_from_gcs_filename mime_table bucket_b
           "gs://b/dir/name.pdf" fresh_context).
  vm_compute. reflexivity.
Defined.

Lemma add_artifact_from_gcs_twice_witness :
  exists bucket_name blob_name first_bytes second_bytes,
    bucket_b bucket_name blob_name = Return first_bytes
    /\ bucket_b_later bucket_name blob_name = Return second_bytes
    /\ artifacts_of
         (snd (add_artifact_from_gcs mime_table bucket_b_later
                 "gs://b/dir/name.pdf" (after_saving "gs://b/dir/name.pdf")))
         !! artifact_path_of fresh_context (last_segment slash "gs://b/dir/name.pdf")
       = Some (default [] (artifacts_of fresh_context
                             !! artifact_path_of fresh_context
                                  (last_segment slash "gs://b/dir/name.pdf"))
                 ++ [saved_part_of mime_table first_bytes
                       (last_segment slash "gs://b/dir/name.pdf");
                     saved_part_of mime_table second_bytes
                       (last_segment slash "gs://b/dir/name.pdf")]).
Proof.
  apply (add_artifact_from_gcs_twice mime_table bucket_b bucket_b_later
           "gs://b/dir/name.pdf" fresh_context
           (after_saving "gs://b/dir/name.pdf")).
  - vm_compute. reflexivity.
  - vm_compute. reflexivity.
Defined.

(** *** JSON files *)

Section JsonFiles.

Implicit Types (c : ascii) (s x y stem : string).

Lemma contains_app c x y : contains c (x +:+ y) = contains c x || contains c y.
Proof.
  induction x as [|a x IH]; [done|].
  rewrite app_String. simpl. by destruct (Ascii.eqb a c).
Qed.

Lemma cut_last_absent c s : contains c s = false -> cut_last c s = None.
Proof.
  intros H. destruct (cut_last c s) as [[h t]|] eqn:E; [|done].
  destruct (cut_last_spec _ _ _ _ E) as [-> _].
  by rewrite contains_app, contains_String, orb_true_r in H.
Qed.

Lemma app_empty_r s : s +:+ "" = s.
Proof. induction s as [|a s IH]; [done|]. by rewrite app_String, IH. Qed.

(** The library's rule on a name stem.json: when the stem names no scheme
    and is not made of dots only, the extension is .json. *)
Lemma guess_type_json_suffix types_map with_scheme stem :
  types_map ".json" = Some "application/json" ->
  contains ":"%char stem = false ->
  contains "/"%char stem = false ->
  Mimetypes.all_dots stem = false ->
  Mimetypes.guess_type types_map with_scheme (stem +:+ ".json")
  = (Some "application/json", None).
Proof.
  intros Ht Hcolon Hslash Hdots.
  unfold Mimetypes.guess_type, Mimetypes.url_scheme.
  rewrite (proj2 (cut_first_None _ _)) by by rewrite contains_app, Hcolon.
  unfold Mimetypes.guess_file_type, Mimetypes.splitext.
  rewrite cut_last_absent by by rewrite contains_app, Hslash.
  unfold Mimetypes.splitext_name.
  rewrite (cut_last_app "."%char stem ".json" "" "json" eq_refl), app_empty_r, Hdots.
  simpl. change (types_map (String _ _)) with (types_map ".json").
  by rewrite Ht.
Qed.

(** C5, as the code has it.  The adapter replaces the type the MIME table
    infers, not the ending of the name.  When the type inferred for the
    last segment of the URI is application/json, and the object is read
    and the service is the in-memory one, the adapter saves the bytes as a
    new version of content type text/plain.  The library infers
    application/json for every name stem.json whose stem has no colon and
    no slash and has a character other than a dot.  Whenever the adapter
    saves, the version it appends does not have content type
    application/json, and a store without application/json versions stays
    so through every call. *)
Theorem json_artifact_stored_as_text_plain :
  (forall guess_type download uri ctx artifacts bucket_name blob_name file_bytes,
     slice_from 5 uri = bucket_name +:+ "/" +:+ blob_name ->
     contains slash bucket_name = false ->
     download bucket_name blob_name = Return file_bytes ->
     artifact_service ctx = Some (InMemory artifacts) ->
     fst (guess_type (last_segment slash uri)) = Some "application/json" ->
     add_artifact_from_gcs guess_type download uri ctx
     = (Return tt,
        with_artifacts ctx
          (<[artifact_path_of ctx (last_segment slash uri) :=
               default [] (artifacts !! artifact_path_of ctx (last_segment slash uri))
                 ++ [{| text := None;
                        inline_data :=
                          Some {| data := file_bytes;
                                  mime_type := Some "text/plain" |} |}]]>
             artifacts)))
  /\ (forall types_map with_scheme stem,
        types_map ".json" = Some "application/json" ->
        contains ":"%char stem = false ->
        contains "/"%char stem = false ->
        Mimetypes.all_dots stem = false ->
        fst (Mimetypes.guess_type types_map with_scheme (stem +:+ ".json"))
        = Some "application/json")
  /\ (forall guess_type download uri ctx ctx',
        add_artifact_from_gcs guess_type download uri ctx = (Return tt, ctx') ->
        exists artifacts earlier blob,
          artifact_service ctx = Some (InMemory artifacts) /\
          artifacts_of ctx'
          = <[artifact_path_of ctx (last_segment slash uri) :=
                earlier ++ [{| text := None; inline_data := Some blob |}]]>
              artifacts /\
          mime_type blob <> Some "application/json")
  /\ (forall guess_type download uri ctx,
        no_json_stored ctx ->
        no_json_stored (snd (add_artifact_from_gcs guess_type download uri ctx))).
Proof.
  split; [|split; [|split]].
  - intros guess_type download uri ctx artifacts b n bs Heq Hb Hd Hs Hj.
    assert (Hsplit : split1 slash (slice_from 5 uri) = [b; n])
      by (rewrite Heq; by apply split1_app).
    rewrite (add_artifact_split guess_type download uri b n ctx Hsplit).
    unfold fetch_and_save. unfold_action. rewrite Hd.
    rewrite (save_artifact_in_memory _ _ _ _ Hs).
    unfold saved_part_of. by rewrite (stored_mime_type_json _ _ Hj).
  - intros types_map with_scheme stem Ht Hc Hs Hd.
    by rewrite guess_type_json_suffix.
  - intros guess_type download uri ctx ctx' H.
    destruct (proj1 (add_artifact_appended_type guess_type download) _ _ _ H)
      as (artifacts & earlier & blob & Hs & Ha & Hne & _).
    by exists artifacts, earlier, blob.
  - intros guess_type download.
    exact (proj2 (add_artifact_appended_type guess_type download)).
Qed.

End JsonFiles.

(** The name .json ends in .json and has no extension for the library:
    the adapter saves it without a content type. *)
Lemma dot_json_saved_without_type :
  last_segment slash "gs://b/.json" = "" +:+ ".json"
  /\ Mimetypes.library_guess_type ".json" = (None, None)
  /\ add_artifact_from_gcs Mimetypes.library_guess_type bucket_b "gs://b/.json"
       fresh_context
     = (Return tt,
        with_artifacts fresh_context {[ session_path ".json" := [saved None] ]}).
Proof. split; [reflexivity|]. split; [reflexivity|]. vm_compute. reflexivity. Qed.

Lemma json_artifact_stored_as_text_plain_witness :
  add_artifact_from_gcs Mimetypes.library_guess_type bucket_b
    "gs://b/data/scene.json" fresh_context
  = (Return tt,
     with_artifacts fresh_context
       {[ session_path "scene.json" := [saved (Some "text/plain")] ]})
  /\ fst (Mimetypes.guess_type Mimetypes.common_types
            Mimetypes.no_type_for_schemes ("scene" +:+ ".json"))
     = Some "application/json"
  /\ (exists artifacts earlier blob,
        artifact_service fresh_context = Some (InMemory artifacts) /\
        artifacts_of (after_saving "gs://b/data/scene.json")
        = <[artifact_path_of fresh_context
              (last_segment slash "gs://b/data/scene.json") :=
              earlier ++ [{| text := None; inline_data := Some blob |}]]>
            artifacts /\
        mime_type blob <> Some "application/json")
  /\ no_json_stored
       (snd (add_artifact_from_gcs Mimetypes.library_guess_type bucket_b
               "gs://b/data/scene.json" fresh_context)).
Proof.
  pose proof json_artifact_stored_as_text_plain as (Hsave & Hrule & Hnever & Hinv).
  split; [|split; [|split]].
  - exact (Hsave Mimetypes.library_guess_type bucket_b "gs://b/data/scene.json"
             fresh_context ∅ "b" "data/scene.json" some_bytes
             eq_refl eq_refl eq_refl eq_refl eq_refl).
  - exact (Hrule Mimetypes.common_types Mimetypes.no_type_for_schemes "scene"
             eq_refl eq_refl eq_refl eq_refl).
  - apply (Hnever mime_table bucket_b "gs://b/data/scene.json" fresh_context).
    vm_compute. reflexivity.
  - exact (Hinv Mimetypes.library_guess_type bucket_b "gs://b/data/scene.json"
             fresh_context no_json_stored_fresh).
Defined.

(** *** Sessions of the worker route *)

Section SessionFacts.

Variable uuid4 : nat -> string.
Variable run_async : string -> string -> Content -> event_stream.

Implicit Types (event : GcsEvent) (w : World) (events : list GcsEvent).

Local Abbreviation route := (worker_route uuid4 run_async).
Local Abbreviation run := (worker_run uuid4 run_async).

(** The worker over the accepting service is the worker of [main.py] as
    given above. *)
Lemma process_asset_with_recording event w :
  process_asset_with session_service_create_session uuid4 run_async event w
  = process_asset uuid4 run_async event w.
Proof. reflexivity. Qed.

(** With an identifier that is not in use, the in-memory service does what
    the recording one does. *)
Lemma worker_route_fresh event w :
  worker_session (uuid4 (uuid_drawn w)) ∉ session_service w ->
  route event w = serve_process_asset uuid4 run_async event w.
Proof.
  intros Hfresh.
  unfold worker_route, serve_process_asset_with, process_asset_with,
    serve_process_asset, process_asset, in_memory_create_session, str_uuid4.
  unfold_action. simpl. by rewrite bool_decide_eq_false_2.
Qed.

(** With an identifier in use, the service refuses: no session is created
    and the route answers 500 with the text of the refusal. *)
Lemma worker_route_in_use event w :
  worker_session (uuid4 (uuid_drawn w)) ∈ session_service w ->
  route event w
  = ({| status_code := 500;
        content :=
          Some (JObject [("detail",
                          JString ("Session with id " +:+ uuid4 (uuid_drawn w)
                                     +:+ " already exists."))]) |},
     drawn_only w).
Proof.
  intros Hused.
  unfold worker_route, serve_process_asset_with, process_asset_with,
    in_memory_create_session, str_uuid4.
  unfold_action. simpl. by rewrite bool_decide_eq_true_2.
Qed.

Lemma worker_route_sessions event w :
  session_service (snd (route event w))
  = if bool_decide (worker_session (uuid4 (uuid_drawn w)) ∈ session_service w)
    then session_service w
    else session_service w ++ [worker_session (uuid4 (uuid_drawn w))].
Proof.
  case_bool_decide as H.
  - by rewrite worker_route_in_use.
  - by rewrite worker_route_fresh, serve_process_asset_by_stream.
Qed.

Lemma elem_of_worker_sessions id (ids : list string) :
  worker_session id ∈ map worker_session ids <-> id ∈ ids.
Proof.
  rewrite list_elem_of_fmap. split.
  - intros (id' & Heq & Hin). by simplify_eq.
  - intros Hin. by exists id.
Qed.

Lemma route_keeps_distinct event w :
  distinct_worker_sessions w -> distinct_worker_sessions (snd (route event w)).
Proof.
  intros (ids & Hs & Hnd). unfold distinct_worker_sessions.
  rewrite worker_route_sessions. case_bool_decide as Hin; [by exists ids|].
  exists (ids ++ [uuid4 (uuid_drawn w)]). rewrite Hs, map_app. split; [done|].
  apply NoDup_app. split; [done|]. split; [|apply NoDup_singleton].
  intros id Hid ->%list_elem_of_singleton. apply Hin. rewrite Hs.
  by apply elem_of_worker_sessions.
Qed.

Lemma route_keeps_NoDup event w :
  NoDup (session_service w) -> NoDup (session_service (snd (route event w))).
Proof.
  intros Hnd. rewrite worker_route_sessions. case_bool_decide as Hin; [done|].
  apply NoDup_app. split; [done|]. split; [|apply NoDup_singleton].
  by intros s Hs ->%list_elem_of_singleton.
Qed.

(** C8. Every invocation of the worker route draws one identifier.  When
    that identifier is not in use, the invocation creates exactly one
    session, the one of that identifier; when it is in use, the session
    service refuses it, no session is created and the answer is 500.
    Two invocations whose identifiers differ, neither in use, create
    different sessions.  No identifier is ever the identifier of two
    sessions: whatever the generator draws, a run of invocations keeps the
    sessions distinct, and when the sessions at the start are sessions of
    this route with distinct identifiers (none at all, for one), the
    identifiers stay distinct. *)
Theorem process_asset_one_fresh_session :
  (forall event w,
     uuid_drawn (snd (route event w)) = S (uuid_drawn w)
     /\ (worker_session (uuid4 (uuid_drawn w)) ∉ session_service w ->
         session_service (snd (route event w))
         = session_service w ++ [worker_session (uuid4 (uuid_drawn w))])
     /\ (worker_session (uuid4 (uuid_drawn w)) ∈ session_service w ->
         session_service (snd (route event w)) = session_service w
         /\ status_code (fst (route event w)) = 500))
  /\ (forall event1 event2 w1 w2,
        uuid4 (uuid_drawn w1) <> uuid4 (uuid_drawn w2) ->
        worker_session (uuid4 (uuid_drawn w1)) ∉ session_service w1 ->
        worker_session (uuid4 (uuid_drawn w2)) ∉ session_service w2 ->
        last (session_service (snd (route event1 w1)))
        <> last (session_service (snd (route event2 w2))))
  /\ (forall events w,
        NoDup (session_service w) -> NoDup (session_service (run events w)))
  /\ (forall events w,
        distinct_worker_sessions w ->
        NoDup (map session_session_id (session_service (run events w)))).
Proof.
  split; [|split; [|split]].
  - intros event w. split; [|split].
    + destruct (decide (worker_session (uuid4 (uuid_drawn w)) ∈ session_service w)).
      * by rewrite worker_route_in_use.
      * by rewrite worker_route_fresh, serve_process_asset_by_stream.
    + intros H. by rewrite worker_route_sessions, bool_decide_eq_false_2.
    + intros H. by rewrite worker_route_in_use.
  - intros event1 event2 w1 w2 Hne H1 H2.
    rewrite !worker_route_sessions, !bool_decide_eq_false_2 by done.
    rewrite !last_snoc. intros H. apply Hne. by simplify_eq.
  - intros events. unfold worker_run, process_all_with.
    induction events as [|event events IH]; intros w Hnd; simpl; [done|].
    apply IH. by apply route_keeps_NoDup.
  - intros events w H0.
    assert (Hd : distinct_worker_sessions (run events w)).
    { revert w H0. unfold worker_run, process_all_with.
      induction events as [|event events IH]; intros w H0; simpl; [done|].
      apply IH. by apply route_keeps_distinct. }
    destruct Hd as (ids & -> & Hnd).
    replace (map session_session_id (map worker_session ids)) with ids; [done|].
    clear. induction ids as [|i ids IH]; simpl; [done|]. by f_equal.
Qed.

End SessionFacts.

Lemma process_asset_one_fresh_session_witness :
  session_service (snd (worker_route counting_uuid4 silent_runner video_event
                          idle_world))
  = session_service idle_world ++ [worker_session "a-0000"]
  /\ (session_service
        (snd (worker_route stuck_uuid4 silent_runner video_event
                (session_created "a-0000" idle_world)))
      = session_service (session_created "a-0000" idle_world)
      /\ status_code
           (fst (worker_route stuck_uuid4 silent_runner video_event
                   (session_created "a-0000" idle_world))) = 500)
  /\ last (session_service
             (snd (worker_route counting_uuid4 silent_runner video_event
                     idle_world)))
     <> last (session_service
                (snd (worker_route counting_uuid4 silent_runner video_event
                        (session_created "a-0000" idle_world))))
  /\ NoDup (session_service
              (worker_run stuck_uuid4 silent_runner
                 [video_event; video_event; video_event] idle_world))
  /\ NoDup (map session_session_id
              (session_service
                 (worker_run stuck_uuid4 silent_runner
                    [video_event; video_event; video_event] idle_world))).
Proof.
  pose proof (process_asset_one_fresh_session counting_uuid4 silent_runner)
    as (Hone & Hdistinct & _ & _).
  pose proof (process_asset_one_fresh_session stuck_uuid4 silent_runner)
    as (Hstuck & _ & Hnodup & Hids).
  split; [|split; [|split; [|split]]].
  - apply (proj1 (proj2 (Hone video_event idle_world))).
    apply (bool_decide_unpack _). vm_compute. exact I.
  - apply (proj2 (proj2 (Hstuck video_event (session_created "a-0000" idle_world)))).
    apply (bool_decide_unpack _). vm_compute. exact I.
  - apply Hdistinct.
    + vm_compute. discriminate.
    + apply (bool_decide_unpack _). vm_compute. exact I.
    + apply (bool_decide_unpack _). vm_compute. exact I.
  - apply Hnodup. constructor.
  - apply Hids. exists []. split; [reflexivity|constructor].
Defined.
